(** * S3ToMilvus: the [/process-file] ingestion endpoint of [app.py]

    A shallow embedding of [create_or_get_collection] and [process_file].
    The three collaborators of the handler (the S3 client, the sentence
    embedding model and the Milvus server) are outside the repository; they
    are represented by a [world] of oracles, and every call that leaves the
    process is written to a trace together with the exception it raised, if
    any.  Python strings are byte strings holding UTF-8; the byte of '/' never
    occurs inside a multi-byte UTF-8 sequence, so splitting the bytes on it is
    splitting the text on it.  [print] statements are logging and are left
    out, except for the [num_entities] reads that they trigger.

    The body of the request is a JSON object: a finite map from keys to JSON
    values.  The Milvus server is a finite map from collection names to a
    schema and rows, on which the calls of pymilvus act as its documentation
    says; on top of that any call may fail, as the [world] decides. *)

From Stdlib Require Import ZArith List Ascii String Floats Lia.
From stdpp Require Import base option strings gmap list.

Local Open Scope string_scope.
Set Warnings "-register-all".

(** ** Python values that cross the handler *)

(** What [request.json] can hold under a key. *)
Inductive json : Type :=
| JNull
| JBool (b : bool)
| JInt (n : Z)
| JFloat (x : float)
| JStr (s : string)
| JArr (items : list json)
| JObj (members : list (string * json)).

(** A raised Python exception (an instance of [Exception], which is what
    [except Exception] catches): its class and what [str(e)] gives. *)
Record exn : Type := PyExn { exn_class : string; exn_str : string }.

Inductive result (A : Type) : Type :=
| Ok (a : A)
| Raise (e : exn).
Arguments Ok {A} a.
Arguments Raise {A} e.

Definition raised {A : Type} (r : result A) : option exn :=
  match r with
  | Ok _ => None
  | Raise e => Some e
  end.

(** Python truthiness, as used by [not bucket_name or not file_key]. *)
Definition truthy (v : json) : bool :=
  match v with
  | JNull => false
  | JBool b => b
  | JInt n => negb (n =? 0)%Z
  | JFloat x => negb (PrimFloat.eqb x 0%float)
  | JStr s => match s with EmptyString => false | String _ _ => true end
  | JArr items => match items with [] => false | _ :: _ => true end
  | JObj members => match members with [] => false | _ :: _ => true end
  end.

(** [data.get(key)]: the value under [key], [None] when the key is absent. *)
Definition dict_get (data : gmap string json) (key : string) : json :=
  default JNull (data !! key).

Definition type_name (v : json) : string :=
  match v with
  | JNull => "NoneType"
  | JBool _ => "bool"
  | JInt _ => "int"
  | JFloat _ => "float"
  | JStr _ => "str"
  | JArr _ => "list"
  | JObj _ => "dict"
  end.

(** [s.split(sep)] for a one-character separator. *)
Fixpoint split (sep : ascii) (s : string) : list string :=
  match s with
  | EmptyString => [EmptyString]
  | String c rest =>
      if Ascii.eqb c sep then EmptyString :: split sep rest
      else match split sep rest with
           | [] => [String c EmptyString]
           | part :: parts => String c part :: parts
           end
  end.

(** [file_key.split('/')]: only [str] has the method. *)
Definition json_split (v : json) (sep : ascii) : result (list string) :=
  match v with
  | JStr s => Ok (split sep s)
  | _ => Raise (PyExn "AttributeError"
                  ("'" +:+ type_name v +:+ "' object has no attribute 'split'"))
  end.

(** [l[i]] *)
Definition py_index (l : list string) (i : nat) : result string :=
  match l !! i with
  | Some x => Ok x
  | None => Raise (PyExn "IndexError" "list index out of range")
  end.

(** A one-dimensional numpy array of floats. *)
Record ndarray : Type := mkArray { array_data : list float }.

(** [a.tolist()] *)
Definition tolist (a : ndarray) : list float := array_data a.

(** What [model.encode] hands back: a numpy array or a native list. *)
Inductive embedding : Type :=
| NdArray (a : ndarray)
| PyList (l : list float).

(** ** pymilvus data *)

Inductive DataType : Type := INT64 | FLOAT_VECTOR.

Record FieldSchema : Type := mkFieldSchema {
  name : string;
  dtype : DataType;
  is_primary : bool;
  auto_id : bool;
  dim : option Z
}.

Record CollectionSchema : Type := mkCollectionSchema {
  fields : list FieldSchema;
  description : string
}.

#[global] Instance DataType_eq_dec : EqDecision DataType.
Proof. solve_decision. Defined.
#[global] Instance FieldSchema_eq_dec : EqDecision FieldSchema.
Proof. solve_decision. Defined.
#[global] Instance CollectionSchema_eq_dec : EqDecision CollectionSchema.
Proof. solve_decision. Defined.

(** A [Collection] object is a handle: it names a collection of the server. *)
Record Collection : Type := mkCollection { collection_name : string }.

(** What the server keeps for a collection: its schema, the rows that were
    flushed and the rows inserted since the last flush. *)
Record collection_data : Type := mkData {
  coll_schema : CollectionSchema;
  coll_rows : list (list float);
  coll_pending : list (list float)
}.

(** ** Calls that leave the process *)

Inductive call : Type :=
| S3GetObject (Bucket Key : json)
| S3BodyRead
| ModelEncode (text : string)
| HasCollection (cname : string)
| CollectionOpen (cname : string)
| CollectionCreate (cname : string) (schema : CollectionSchema)
| NumEntities (cname : string)
| Insert (cname : string) (data : list (list (list float)))
| Flush (cname : string).

(** A call and the exception it raised ([None]: it returned). *)
Record event : Type := Ev { ev_call : call; ev_raised : option exn }.

Record file_obj : Type := mkFileObj { Body_read : result (list Byte.byte) }.

(** The collaborators.  [milvus_fault] is every reason for which the server
    or the connection makes a call fail (network, a vector of the wrong
    dimension, a name the server refuses); it may depend on the calls made
    so far and on the server's state, so that the same call can fail once
    and return the next time. *)
Record world : Type := mkWorld {
  s3_get_object : json -> json -> result file_obj;
  bytes_decode : list Byte.byte -> result string;
  model_encode : string -> result embedding;
  milvus_fault : list event -> gmap string collection_data -> call ->
                 option exn
}.

(** ** The handler's effects: server state, exceptions, trace *)

(** A computation reads the calls made before it and the server state; it
    gives a result, the new state and the calls it made. *)
Definition M (A : Type) : Type :=
  list event -> gmap string collection_data ->
  result A * gmap string collection_data * list event.

Definition ret {A : Type} (a : A) : M A := fun _ db => (Ok a, db, []).

Definition lift {A : Type} (r : result A) : M A := fun _ db => (r, db, []).

Definition bind {A B : Type} (m : M A) (k : A -> M B) : M B := fun h db =>
  match m h db with
  | (Ok a, db1, t1) =>
      let '(r, db2, t2) := k a (h ++ t1)%list db1 in (r, db2, (t1 ++ t2)%list)
  | (Raise e, db1, t1) => (Raise e, db1, t1)
  end.

(** [try: m except Exception as e: k e] *)
Definition try_except {A : Type} (m : M A) (k : exn -> M A) : M A :=
  fun h db =>
  match m h db with
  | (Ok a, db1, t1) => (Ok a, db1, t1)
  | (Raise e, db1, t1) =>
      let '(r, db2, t2) := k e (h ++ t1)%list db1 in (r, db2, (t1 ++ t2)%list)
  end.

Notation "'let!' x ':=' m 'in' k" := (bind m (fun x => k))
  (at level 10, x name, m at level 100, k at level 200, only parsing).
Notation "'do!' m 'in' k" := (bind m (fun _ => k))
  (at level 10, m at level 100, k at level 200, only parsing).

(** A call to S3 or to the model: the oracle answers, the trace records it. *)
Definition extern {A : Type} (c : call) (r : result A) : M A :=
  fun _ db => (r, db, [Ev c (raised r)]).

(** A call to Milvus: it fails when the world says so, otherwise the server
    runs it on its state. *)
Definition milvus {A : Type} (w : world) (c : call)
    (run : gmap string collection_data ->
           result A * gmap string collection_data) : M A := fun h db =>
  match milvus_fault w h db c with
  | Some e => (Raise e, db, [Ev c (Some e)])
  | None => let '(r, db') := run db in (r, db', [Ev c (raised r)])
  end.

Definition not_exist {A : Type} (cname : string) : result A :=
  Raise (PyExn "SchemaNotReadyException"
           ("Collection '" +:+ cname +:+ "' not exist, or you can pass in schema to create one.")).

(** [utility.has_collection(name)] *)
Definition has_collection (w : world) (cname : string) : M bool :=
  milvus w (HasCollection cname)
    (fun db => (Ok (match db !! cname with Some _ => true | None => false end),
                db)).

(** [Collection(name)] *)
Definition Collection_open (w : world) (cname : string) : M Collection :=
  milvus w (CollectionOpen cname)
    (fun db => match db !! cname with
               | Some _ => (Ok (mkCollection cname), db)
               | None => (not_exist cname, db)
               end).

(** [Collection(name=name, schema=schema)] *)
Definition Collection_create (w : world) (cname : string)
    (schema : CollectionSchema) : M Collection :=
  milvus w (CollectionCreate cname schema)
    (fun db => match db !! cname with
               | None => (Ok (mkCollection cname),
                          <[cname := mkData schema [] []]> db)
               | Some d =>
                   if decide (coll_schema d = schema)
                   then (Ok (mkCollection cname), db)
                   else (Raise (PyExn "SchemaNotReadyException"
                                  "The collection already exist, but the schema is not the same as the schema passed in."),
                         db)
               end).

(** [collection.num_entities] *)
Definition num_entities (w : world) (c : Collection) : M nat :=
  milvus w (NumEntities (collection_name c))
    (fun db => match db !! collection_name c with
               | Some d => (Ok (length (coll_rows d)), db)
               | None => (not_exist (collection_name c), db)
               end).

(** [collection.insert(data)]: [data] has one column per field that is not
    generated by the server. *)
Definition insert (w : world) (c : Collection)
    (data : list (list (list float))) : M unit :=
  milvus w (Insert (collection_name c) data)
    (fun db => match db !! collection_name c with
               | Some d =>
                   (Ok tt,
                    <[collection_name c :=
                        mkData (coll_schema d) (coll_rows d)
                               (coll_pending d ++ concat data)%list]> db)
               | None => (not_exist (collection_name c), db)
               end).

(** [collection.flush()] *)
Definition flush (w : world) (c : Collection) : M unit :=
  milvus w (Flush (collection_name c))
    (fun db => match db !! collection_name c with
               | Some d =>
                   (Ok tt,
                    <[collection_name c :=
                        mkData (coll_schema d)
                               (coll_rows d ++ coll_pending d)%list []]> db)
               | None => (not_exist (collection_name c), db)
               end).

(** ** [create_or_get_collection] *)

Definition collection_fields : list FieldSchema :=
  [ mkFieldSchema "id" INT64 true true None;
    mkFieldSchema "vector" FLOAT_VECTOR false false (Some 768%Z) ].

Definition collection_schema : CollectionSchema :=
  mkCollectionSchema collection_fields "Text embeddings collection".

Definition create_or_get_collection (w : world)
    (parent_collection_name subfolder_name : string) : M Collection :=
  let full_collection_name :=
    parent_collection_name +:+ "_" +:+ subfolder_name in
  let! exists_ := has_collection w full_collection_name in
  if (exists_ : bool) then
    let! collection := Collection_open w full_collection_name in
    do! num_entities w collection in
    ret collection
  else
    let! collection :=
      Collection_create w full_collection_name collection_schema in
    ret collection.

(** ** [process_file] *)

Record response : Type := mkResponse {
  body : list (string * string);
  status : Z
}.

Definition slash : ascii := "/"%char.

(** [f"{file_key}"].  Where the handler formats [file_key] into a response,
    [file_key.split] has returned, so it is a [str] and formats as itself
    (see [process_file_responses]); the other cases are never reached. *)
Definition fstring (v : json) : string :=
  match v with
  | JStr s => s
  | _ => "<" +:+ type_name v +:+ ">"
  end.

Definition process_file (w : world) (data : gmap string json) : M response :=
  let bucket_name := dict_get data "bucket_name" in
  let file_key := dict_get data "file_key" in
  if negb (truthy bucket_name) || negb (truthy file_key) then
    ret (mkResponse [("error", "Missing bucket_name or file_key")] 400)
  else
    let! file_obj := extern (S3GetObject bucket_name file_key)
                       (s3_get_object w bucket_name file_key) in
    let! raw := extern S3BodyRead (Body_read file_obj) in
    let! file_content := lift (bytes_decode w raw) in
    let! vector := extern (ModelEncode file_content)
                     (model_encode w file_content) in
    let vector := match vector with
                  | NdArray a => [tolist a]
                  | PyList l => [l]
                  end in
    let! path_parts := lift (json_split file_key slash) in
    if (length path_parts <? 3)%nat then
      ret (mkResponse
             [("error", "Invalid file path: " +:+
                        fstring file_key)] 400)
    else
      let! parent_folder := lift (py_index path_parts 0) in
      let! subfolder := lift (py_index path_parts 1) in
      let! collection := create_or_get_collection w parent_folder subfolder in
      do! num_entities w collection in
      try_except
        (do! insert w collection [vector] in
         do! flush w collection in
         do! num_entities w collection in
         ret (mkResponse
                [("message", "Successfully inserted vector for " +:+
                             fstring file_key)] 200))
        (fun e =>
           ret (mkResponse
                  [("error", "Error inserting vector: " +:+ exn_str e)] 500)).

(** ** Requests served one after the other

    Flask answers an exception that escapes the handler with a response of
    its own and goes on serving; the server state carries over. *)

Fixpoint serve (reqs : list (world * gmap string json)) (h : list event)
    (db : gmap string collection_data)
    : list (result response) * gmap string collection_data * list event :=
  match reqs with
  | [] => ([], db, [])
  | (w, data) :: rest =>
      let '(r, db1, t1) := process_file w data h db in
      let '(rs, db2, t2) := serve rest (h ++ t1)%list db1 in
      (r :: rs, db2, (t1 ++ t2)%list)
  end.

(** ** Vocabulary of the properties *)

Definition missing_response : response :=
  mkResponse [("error", "Missing bucket_name or file_key")] 400.

Definition invalid_path_response (file_key : string) : response :=
  mkResponse [("error", "Invalid file path: " +:+ file_key)] 400.

Definition success_response (file_key : string) : response :=
  mkResponse
    [("message", "Successfully inserted vector for " +:+ file_key)] 200.

Definition insert_error_response (e : exn) : response :=
  mkResponse [("error", "Error inserting vector: " +:+ exn_str e)] 500.

Definition is_milvus_call (c : call) : bool :=
  match c with
  | S3GetObject _ _ | S3BodyRead | ModelEncode _ => false
  | _ => true
  end.

(** The floats of an embedding, whatever container holds them. *)
Definition embedding_values (v : embedding) : list float :=
  match v with
  | NdArray a => array_data a
  | PyList l => l
  end.

(** The collection a call to Milvus is about. *)
Definition call_collection (c : call) : option string :=
  match c with
  | S3GetObject _ _ | S3BodyRead | ModelEncode _ => None
  | HasCollection m | CollectionOpen m | CollectionCreate m _
  | NumEntities m | Insert m _ | Flush m => Some m
  end.

Definition targets (cname : string) (ev : event) : Prop :=
  forall m, call_collection (ev_call ev) = Some m -> m = cname.

(** What a call of a request may be, once the collection [cname] and the
    vector [v] of the request are known. *)
Definition expected_call (cname : string) (v : list float) (c : call) : Prop :=
  match c with
  | S3GetObject _ _ | S3BodyRead | ModelEncode _ => True
  | HasCollection m | CollectionOpen m | NumEntities m | Flush m => m = cname
  | CollectionCreate m sch => m = cname /\ sch = collection_schema
  | Insert m d => m = cname /\ d = [[v]]
  end.

Definition is_create (n : string) (ev : event) : bool :=
  match ev_call ev with
  | CollectionCreate m _ => bool_decide (m = n)
  | _ => false
  end.

Definition is_created (n : string) (ev : event) : bool :=
  match ev_raised ev with
  | None => is_create n ev
  | Some _ => false
  end.

(** Creation calls issued for [n], and those among them that returned. *)
Definition creation_calls (n : string) (t : list event) : nat :=
  length (List.filter (is_create n) t).

Definition created (n : string) (t : list event) : nat :=
  length (List.filter (is_created n) t).

(** Every collection of the server has the schema of this service. *)
Definition service_schema (db : gmap string collection_data) : Prop :=
  forall m d, db !! m = Some d -> coll_schema d = collection_schema.

(** A primary key generated by the server, of type INT64, and one float
    vector of dimension 768. *)
Definition schema_shape (sch : CollectionSchema) : Prop :=
  exists key vec,
    fields sch = [key; vec] /\
    dtype key = INT64 /\ is_primary key = true /\ auto_id key = true /\
    dtype vec = FLOAT_VECTOR /\ dim vec = Some 768%Z /\
    is_primary vec = false.

(** Occurrences of the separator in a string. *)
Fixpoint count_sep (sep : ascii) (s : string) : nat :=
  match s with
  | EmptyString => 0
  | String c rest => (if Ascii.eqb c sep then 1 else 0) + count_sep sep rest
  end.

(** [sep.join(parts)] *)
Fixpoint join (sep : ascii) (parts : list string) : string :=
  match parts with
  | [] => EmptyString
  | [part] => part
  | part :: rest => part +:+ String sep (join sep rest)
  end.

(** ** Worlds to run the handler in *)

Definition hello_bytes : list Byte.byte := list_byte_of_string "hello".

Definition hello_vector : list float := repeat 0.25%float 768.

Definition no_such_bucket : exn :=
  PyExn "NoSuchBucket" "The specified bucket does not exist".

Definition dimension_mismatch : exn :=
  PyExn "MilvusException" "vector dimension mismatch".

(** A server that refuses an insert whose vectors are not of dimension 768. *)
Definition checks_dimension (h : list event)
    (db : gmap string collection_data) (c : call) : option exn :=
  match c with
  | Insert _ d =>
      if forallb (forallb (fun v => (length v =? 768)%nat)) d then None
      else Some dimension_mismatch
  | _ => None
  end.

Definition docs_bucket (Bucket Key : json) : result file_obj :=
  match Bucket, Key with
  | JStr b, JStr _ =>
      if String.eqb b "docs" then Ok (mkFileObj (Ok hello_bytes))
      else Raise no_such_bucket
  | _, _ => Raise (PyExn "ParamValidationError" "Parameter validation failed")
  end.

(** Bucket [docs] answers every key with the same small text file; the model
    embeds it in 768 dimensions. *)
Definition docs_world : world := {|
  s3_get_object := docs_bucket;
  bytes_decode := fun raw => Ok (string_of_list_byte raw);
  model_encode := fun _ => Ok (NdArray (mkArray hello_vector));
  milvus_fault := checks_dimension
|}.

(** The same, with a model whose output is too narrow for the schema. *)
Definition narrow_world : world := {|
  s3_get_object := docs_bucket;
  bytes_decode := fun raw => Ok (string_of_list_byte raw);
  model_encode := fun _ => Ok (PyList [0.25; -1.5; 3]%float);
  milvus_fault := checks_dimension
|}.

Definition request (bucket_name file_key : json) : gmap string json :=
  <["bucket_name" := bucket_name]> (<["file_key" := file_key]> ∅).

Definition readme_request : gmap string json :=
  request (JStr "docs") (JStr "teamA/notes/readme.txt").

Definition todo_request : gmap string json :=
  request (JStr "docs") (JStr "teamA/notes/todo.txt").

Definition short_request : gmap string json :=
  request (JStr "docs") (JStr "onlyonesegment").

(** A bucket that does not exist. *)
Definition attic_request (file_key : string) : gmap string json :=
  request (JStr "attic") (JStr file_key).

(** Keys with an empty second, or first, segment. *)
Definition gap_request : gmap string json :=
  request (JStr "docs") (JStr "a//file").

Definition rooted_request : gmap string json :=
  request (JStr "docs") (JStr "/b/file").

(** ** Connecting to Milvus when the module is loaded *)

(** [os.getenv(key)]: [None] when the variable is not set. *)
Definition getenv (environ : gmap string string) (key : string)
    : option string :=
  environ !! key.

(** [os.getenv(key, default)] *)
Definition getenv_default (environ : gmap string string)
    (key default_ : string) : string :=
  default default_ (environ !! key).

(** Truthiness of what [os.getenv] returns: [None] and the empty string are
    falsy. *)
Definition str_truthy (v : option string) : bool :=
  match v with
  | Some (String _ _) => true
  | _ => false
  end.

(** The keyword arguments of [connections.connect]. *)
Record connect_args : Type := mkConnect {
  alias : string;
  host : string;
  port : string;
  user : option string;
  password : option string
}.

(** Lines 20 to 44 of the module: the call to [connections.connect] that is
    made for an environment (as it is after [load_dotenv]). *)
Definition connect_on_load (environ : gmap string string) : connect_args :=
  let MILVUS_HOST := getenv_default environ "MILVUS_HOST" "localhost" in
  let MILVUS_PORT := getenv_default environ "MILVUS_PORT" "19530" in
  let milvus_user := getenv environ "MILVUS_USER" in
  let milvus_password := getenv environ "MILVUS_PASSWORD" in
  if str_truthy milvus_user && str_truthy milvus_password then
    mkConnect "default" MILVUS_HOST MILVUS_PORT milvus_user milvus_password
  else
    mkConnect "default" MILVUS_HOST MILVUS_PORT None None.

(** ** The calls of a request, in the order of the handler *)

Definition resolve_calls (cname : string) (existed : bool) : list call :=
  HasCollection cname ::
  (if existed then [CollectionOpen cname; NumEntities cname]
   else [CollectionCreate cname collection_schema]).

Definition request_calls (Bucket Key : json) (text cname : string)
    (existed : bool) (v : list float) : list call :=
  ([S3GetObject Bucket Key; S3BodyRead; ModelEncode text] ++
   resolve_calls cname existed ++
   [NumEntities cname; Insert cname [[v]]; Flush cname;
    NumEntities cname])%list.

Definition returned (ev : event) : Prop := ev_raised ev = None.

(** What a collection holds once one more vector was inserted and flushed. *)
Definition with_row (d : collection_data) (v : list float) : collection_data :=
  mkData (coll_schema d) (coll_rows d ++ coll_pending d ++ [v])%list [].

Definition empty_collection : collection_data :=
  mkData collection_schema [] [].

Definition secured_environ : gmap string string :=
  <["MILVUS_HOST" := "milvus.internal"]>
    (<["MILVUS_USER" := "ingest"]> (<["MILVUS_PASSWORD" := "s3cret"]> ∅)).

(** Keys whose first two segments join to the same name. *)
Definition left_request : gmap string json :=
  request (JStr "docs") (JStr "a_b/c/x.txt").

Definition right_request : gmap string json :=
  request (JStr "docs") (JStr "a/b_c/y.txt").

Definition number_request : gmap string json :=
  request (JStr "docs") (JInt 5).

Definition connection_lost : exn :=
  PyExn "MilvusException" "connection lost".

(** S3 and the model answer, the Milvus server does not. *)
Definition offline_world : world := {|
  s3_get_object := docs_bucket;
  bytes_decode := fun raw => Ok (string_of_list_byte raw);
  model_encode := fun _ => Ok (NdArray (mkArray hello_vector));
  milvus_fault := fun _ _ _ => Some connection_lost
|}.

(** A server that answers every call but the entity count read that follows
    a flush. *)
Definition late_fault (h : list event)
    (db : gmap string collection_data) (c : call) : option exn :=
  match c, last h with
  | NumEntities _, Some (Ev (Flush _) _) => Some connection_lost
  | _, _ => None
  end.

Definition late_world : world := {|
  s3_get_object := docs_bucket;
  bytes_decode := fun raw => Ok (string_of_list_byte raw);
  model_encode := fun _ => Ok (NdArray (mkArray hello_vector));
  milvus_fault := late_fault
|}.

(** ** Facts about [split] *)

Lemma split_not_nil (sep : ascii) (s : string) : split sep s <> [].
Proof.
  destruct s as [|c rest]; simpl; [easy|].
  destruct (Ascii.eqb c sep); [easy|].
  destruct (split sep rest); easy.
Qed.

(** One more segment than there are separators. *)
Lemma length_split (sep : ascii) (s : string) :
  length (split sep s) = S (count_sep sep s).
Proof.
  induction s as [|c rest IH]; simpl; [reflexivity|].
  destruct (Ascii.eqb c sep); simpl.
  - now rewrite IH.
  - pose proof (split_not_nil sep rest) as Hne.
    destruct (split sep rest) as [|part parts]; [easy|].
    simpl in *. exact IH.
Qed.

(** Joining the segments gives the key back. *)
Lemma join_split (sep : ascii) (s : string) : join sep (split sep s) = s.
Proof.
  induction s as [|c rest IH]; simpl; [reflexivity|].
  destruct (Ascii.eqb c sep) eqn:Hc.
  - apply Ascii.eqb_eq in Hc. subst c.
    pose proof (split_not_nil sep rest) as Hne.
    destruct (split sep rest) as [|part parts]; [easy|].
    simpl in *. now rewrite IH.
  - pose proof (split_not_nil sep rest) as Hne.
    destruct (split sep rest) as [|part parts]; [easy|].
    destruct parts as [|part' parts]; simpl in *; now rewrite <- IH.
Qed.

Example split_readme :
  split slash "teamA/notes/readme.txt" = ["teamA"; "notes"; "readme.txt"].
Proof. reflexivity. Qed.

Example split_edge_cases :
  split slash "" = [""] /\ split slash "a/" = ["a"; ""] /\
  split slash "/b/file" = [""; "b"; "file"] /\
  split slash "a//file" = ["a"; ""; "file"].
Proof. repeat split. Qed.

Lemma split_cons_truthy (fk p s : string) (rest : list string) :
  split slash fk = p :: s :: rest -> truthy (JStr fk) = true.
Proof. destruct fk; simpl; [discriminate | reflexivity]. Qed.

Lemma json_split_inv (v : json) (sep : ascii) (parts : list string) :
  json_split v sep = Ok parts -> exists s, v = JStr s /\ parts = split sep s.
Proof. destruct v; simpl; intros [= <-]; eauto. Qed.

Lemma path_parts_inv (parts : list string) (p s : string) :
  (length parts <? 3)%nat = false ->
  py_index parts 0 = Ok p -> py_index parts 1 = Ok s ->
  exists rest, parts = p :: s :: rest /\ rest <> [].
Proof.
  intros Hlen Hp Hs. apply Nat.ltb_ge in Hlen.
  destruct parts as [|p' [|s' [|x rest]]]; simpl in *; try lia.
  unfold py_index in *. simpl in *. simplify_eq. eauto.
Qed.

Lemma dict_get_lookup (data : gmap string json) (key : string) (v : json) :
  data !! key = Some v -> dict_get data key = v.
Proof. unfold dict_get. now intros ->. Qed.

Lemma dict_get_absent (data : gmap string json) (key : string) :
  data !! key = None -> dict_get data key = JNull.
Proof. unfold dict_get. now intros ->. Qed.

Lemma dict_get_str (data : gmap string json) (key s : string) :
  dict_get data key = JStr s -> data !! key = Some (JStr s).
Proof. unfold dict_get. destruct (data !! key); simpl; congruence. Qed.

(** ** The scenarios of the specification, run *)

Example scenario_A :
  let '(r, db, t) := process_file docs_world readme_request [] ∅ in
  r = Ok (success_response "teamA/notes/readme.txt") /\
  map_to_list db =
    [("teamA_notes", mkData collection_schema [hello_vector] [])] /\
  map ev_call t =
    [ S3GetObject (JStr "docs") (JStr "teamA/notes/readme.txt");
      S3BodyRead; ModelEncode "hello";
      HasCollection "teamA_notes";
      CollectionCreate "teamA_notes" collection_schema;
      NumEntities "teamA_notes";
      Insert "teamA_notes" [[hello_vector]];
      Flush "teamA_notes"; NumEntities "teamA_notes" ].
Proof. vm_compute. repeat split. Qed.

Example scenario_B :
  (process_file docs_world short_request [] ∅).1.1 =
    Ok (invalid_path_response "onlyonesegment").
Proof. vm_compute. reflexivity. Qed.

Example scenario_C :
  process_file docs_world (<["file_key" := JStr "a/b/c"]> ∅) [] ∅
  = (Ok missing_response, ∅, []).
Proof. vm_compute. reflexivity. Qed.

Example scenario_D :
  (process_file narrow_world readme_request [] ∅).1.1 =
    Ok (insert_error_response dimension_mismatch).
Proof. vm_compute. reflexivity. Qed.

(** A second file under the same prefix reuses the collection. *)
Example same_prefix_twice :
  let '(rs, db, t) :=
    serve [(docs_world, readme_request); (docs_world, todo_request)] [] ∅ in
  rs = [Ok (success_response "teamA/notes/readme.txt");
        Ok (success_response "teamA/notes/todo.txt")] /\
  creation_calls "teamA_notes" t = 1 /\
  map_to_list db =
    [("teamA_notes",
      mkData collection_schema [hello_vector; hello_vector] [])].
Proof. vm_compute. repeat split. Qed.

(** ** Validation of the request body *)

(** The handler answers [missing_response] and does nothing else as soon as
    one of the two fields is falsy. *)
Lemma process_file_falsy (w : world) (data : gmap string json)
    (h : list event) (db : gmap string collection_data) :
  truthy (dict_get data "bucket_name") = false \/
  truthy (dict_get data "file_key") = false ->
  process_file w data h db = (Ok missing_response, db, []).
Proof.
  intros Hfalsy. unfold process_file.
  destruct Hfalsy as [-> | ->]; simpl; [reflexivity|].
  now rewrite orb_true_r.
Qed.

(** C3: a request whose JSON body lacks [bucket_name] or [file_key] gets
    400 with the error [Missing bucket_name or file_key]; the server state is
    untouched and the trace of calls to S3, to the model and to Milvus is
    empty. *)
Theorem missing_field_rejected (w : world) (data : gmap string json)
    (h : list event) (db : gmap string collection_data) :
  data !! "bucket_name" = None \/ data !! "file_key" = None ->
  process_file w data h db =
    (Ok (mkResponse [("error", "Missing bucket_name or file_key")] 400),
     db, []).
Proof.
  intros Hmissing. apply process_file_falsy.
  destruct Hmissing as [H | H]; [left | right];
    now rewrite (dict_get_absent _ _ H).
Qed.

Lemma missing_field_rejected_witness :
  process_file docs_world (<["file_key" := JStr "a/b/c"]> ∅) [] ∅ =
    (Ok (mkResponse [("error", "Missing bucket_name or file_key")] 400),
     ∅, []).
Proof.
  apply (missing_field_rejected docs_world (<["file_key" := JStr "a/b/c"]> ∅)
           [] ∅).
  left. vm_compute. reflexivity.
Defined.

(** C9: a field that is present but holds the empty string is treated like a
    missing one: same 400 response, no call made. *)
Theorem empty_field_rejected (w : world) (data : gmap string json)
    (h : list event) (db : gmap string collection_data) :
  data !! "bucket_name" = Some (JStr "") \/
  data !! "file_key" = Some (JStr "") ->
  process_file w data h db =
    (Ok (mkResponse [("error", "Missing bucket_name or file_key")] 400),
     db, []).
Proof.
  intros Hempty. apply process_file_falsy.
  destruct Hempty as [H | H]; [left | right];
    now rewrite (dict_get_lookup _ _ _ H).
Qed.

Lemma empty_field_rejected_witness :
  process_file docs_world (request (JStr "docs") (JStr "")) [] ∅ =
    (Ok (mkResponse [("error", "Missing bucket_name or file_key")] 400),
     ∅, []).
Proof.
  apply (empty_field_rejected docs_world (request (JStr "docs") (JStr ""))
           [] ∅).
  right. vm_compute. reflexivity.
Defined.

(** ** Keys with fewer than three segments *)

Ltac enter_handler Hb Hbt Hk Hkt :=
  unfold process_file;
  rewrite (dict_get_lookup _ _ _ Hb), (dict_get_lookup _ _ _ Hk), Hbt, Hkt;
  cbn [negb orb].

(** C1 (amended): for a key with fewer than three segments the handler
    fetches the object and computes the embedding first; if these succeed it
    answers 400 [Invalid file path: <file_key>].  No call to Milvus is made
    and the server state is unchanged. *)
Theorem short_key_rejected_after_fetch (w : world) (data : gmap string json)
    (h : list event) (db : gmap string collection_data) (b : json)
    (fk : string) :
  data !! "bucket_name" = Some b -> truthy b = true ->
  data !! "file_key" = Some (JStr fk) -> truthy (JStr fk) = true ->
  length (split slash fk) < 3 ->
  let '(r, db', t) := process_file w data h db in
  db' = db /\
  Forall (fun ev => is_milvus_call (ev_call ev) = false) t /\
  (exists res t', t = Ev (S3GetObject b (JStr fk)) res :: t') /\
  (forall resp, r = Ok resp ->
     resp = mkResponse [("error", "Invalid file path: " +:+ fk)] 400 /\
     exists text,
       t = [Ev (S3GetObject b (JStr fk)) None; Ev S3BodyRead None;
            Ev (ModelEncode text) None]) /\
  (forall obj raw text emb,
     s3_get_object w b (JStr fk) = Ok obj -> Body_read obj = Ok raw ->
     bytes_decode w raw = Ok text -> model_encode w text = Ok emb ->
     r = Ok (mkResponse [("error", "Invalid file path: " +:+ fk)] 400)).
Proof.
  intros Hb Hbt Hk Hkt Hlen.
  apply Nat.ltb_lt in Hlen.
  enter_handler Hb Hbt Hk Hkt.
  unfold bind, extern, lift, ret, json_split.
  destruct (s3_get_object w b (JStr fk)) as [obj|e] eqn:Hget; simpl.
  2: { repeat split; eauto; try congruence; repeat constructor. }
  destruct (Body_read obj) as [raw|e] eqn:Hread; simpl.
  2: { repeat split; eauto; try congruence; repeat constructor. }
  destruct (bytes_decode w raw) as [text|e] eqn:Hdec; simpl.
  2: { repeat split; eauto; try congruence; repeat constructor. }
  destruct (model_encode w text) as [emb|e] eqn:Henc; simpl.
  2: { repeat split; eauto; try congruence; repeat constructor. }
  rewrite Hlen. simpl.
  repeat split; eauto; try congruence; try (repeat constructor; fail).
  all: intros resp [= <-]; eauto.
Qed.

Lemma short_key_rejected_after_fetch_witness :
  let '(r, db', t) := process_file docs_world short_request [] ∅ in
  db' = ∅ /\
  Forall (fun ev => is_milvus_call (ev_call ev) = false) t /\
  (exists res t',
     t = Ev (S3GetObject (JStr "docs") (JStr "onlyonesegment")) res :: t') /\
  (forall resp, r = Ok resp ->
     resp = mkResponse
              [("error", "Invalid file path: " +:+ "onlyonesegment")] 400 /\
     exists text,
       t = [Ev (S3GetObject (JStr "docs") (JStr "onlyonesegment")) None;
            Ev S3BodyRead None; Ev (ModelEncode text) None]) /\
  (forall obj raw text emb,
     s3_get_object docs_world (JStr "docs") (JStr "onlyonesegment") = Ok obj ->
     Body_read obj = Ok raw ->
     bytes_decode docs_world raw = Ok text ->
     model_encode docs_world text = Ok emb ->
     r = Ok (mkResponse
               [("error", "Invalid file path: " +:+ "onlyonesegment")] 400)).
Proof.
  refine (short_key_rejected_after_fetch docs_world short_request [] ∅
            (JStr "docs") "onlyonesegment" _ _ _ _ _).
  - vm_compute. reflexivity.
  - reflexivity.
  - vm_compute. reflexivity.
  - reflexivity.
  - vm_compute. lia.
Defined.

(** Scenario B, run: the 400 comes after the object was fetched and embedded
    (the trace of the request is not empty), and it does not come at all when
    the fetch fails. *)
Lemma short_key_fetches_first :
  process_file docs_world short_request [] ∅ =
    (Ok (mkResponse [("error", "Invalid file path: onlyonesegment")] 400), ∅,
     [Ev (S3GetObject (JStr "docs") (JStr "onlyonesegment")) None;
      Ev S3BodyRead None; Ev (ModelEncode "hello") None]) /\
  (process_file docs_world short_request [] ∅).2 <> [] /\
  process_file docs_world (attic_request "onlyonesegment") [] ∅ =
    (Raise no_such_bucket, ∅,
     [Ev (S3GetObject (JStr "attic") (JStr "onlyonesegment"))
         (Some no_such_bucket)]).
Proof. vm_compute. repeat split. discriminate. Qed.

(** ** Every path through the handler

    The handler has no loop: a run is one of finitely many paths, told apart
    by what the collaborators answer.  [split_paths] walks them. *)

Local Arguments String.append : simpl never.
Local Arguments not_exist : simpl never.

Ltac unfold_handler :=
  unfold process_file, create_or_get_collection, has_collection,
    Collection_open, Collection_create, num_entities, insert, flush,
    milvus, extern, lift, ret, bind, try_except in *.

Ltac split_paths :=
  simpl in * |-;
  repeat match goal with
         | H : context [match ?x with _ => _ end] |- _ =>
             lazymatch x with
             | context [match _ with _ => _ end] => fail
             | _ => destruct x eqn:?; simpl in H;
                    rewrite ?lookup_insert_eq in H; simpl in H;
                    try discriminate
             end
         end;
  simplify_eq.

Ltac in_trace :=
  repeat match goal with
         | H : False |- _ => destruct H
         | H : _ \/ _ |- _ => destruct H as [H | H]
         | H : In _ _ |- _ => simpl in H
         | H : Forall _ (_ :: _) |- _ =>
             let H' := fresh in apply Forall_cons in H as [H' H]; simpl in H'
         end;
  simplify_eq.

(** In a path that got as far as indexing the segments, name the key and
    its first two segments. *)
Ltac resolved_path fk p s rest :=
  match goal with
  | Hsplit : json_split (dict_get _ _) _ = Ok ?parts,
    Hlen : (length ?parts <? 3)%nat = false,
    Hp : py_index ?parts 0 = Ok ?p', Hs : py_index ?parts 1 = Ok ?s' |- _ =>
      let Hk := fresh "Hk" in
      let Hparts := fresh "Hparts" in
      let Hrest := fresh "Hrest" in
      destruct (json_split_inv _ _ _ Hsplit) as (fk & Hk & ->);
      destruct (path_parts_inv _ _ _ Hlen Hp Hs) as (rest & Hparts & Hrest);
      rename p' into p; rename s' into s;
      try rewrite Hk in *;
      apply dict_get_str in Hk
  end.

(** The calls of a request: either none goes to Milvus, or the key is a
    string with at least three segments, the model returned an embedding,
    and every call is as [expected_call] says. *)
Lemma process_file_calls (w : world) (data : gmap string json)
    (h : list event) (db db' : gmap string collection_data)
    (r : result response) (t : list event) :
  process_file w data h db = (r, db', t) ->
  Forall (fun ev => is_milvus_call (ev_call ev) = false) t \/
  exists fk p s rest text emb,
    data !! "file_key" = Some (JStr fk) /\
    split slash fk = p :: s :: rest /\ rest <> [] /\
    In (Ev (ModelEncode text) None) t /\ model_encode w text = Ok emb /\
    Forall (fun ev => expected_call (p +:+ "_" +:+ s) (embedding_values emb)
                        (ev_call ev)) t.
Proof.
  intros Hrun. unfold_handler. split_paths.
  all: try (left; repeat constructor; fail).
  all: right; resolved_path fk p s rest;
    match goal with
    | H : model_encode _ ?text = Ok ?emb |- _ =>
        exists fk, p, s, rest, text, emb
    end;
    repeat split; simpl; auto 10;
    repeat constructor.
Qed.

Lemma service_schema_insert (db : gmap string collection_data)
    (m : string) (d : collection_data) :
  service_schema db -> coll_schema d = collection_schema ->
  service_schema (<[m := d]> db).
Proof.
  intros Hdb Hd m' d' Hm'.
  destruct (decide (m = m')) as [<- | Hne]; simplify_map_eq; eauto.
Qed.

(** What a request does to the server: collections stay, an existing
    collection is not created again, at most one creation succeeds and the
    collection is there afterwards, and the schema of the service is the
    only one around if it was before. *)
Lemma process_file_effect (w : world) (data : gmap string json)
    (h : list event) (db db' : gmap string collection_data)
    (r : result response) (t : list event) :
  process_file w data h db = (r, db', t) ->
  (forall n,
     (is_Some (db !! n) -> is_Some (db' !! n) /\ creation_calls n t = 0) /\
     created n t <= 1 /\
     (created n t = 1 -> is_Some (db' !! n))) /\
  (service_schema db -> service_schema db').
Proof.
  intros Hrun. unfold_handler. split_paths.
  all: simplify_map_eq.
  all: unfold creation_calls, created, is_created, is_create;
    (split; [intros n; simpl; repeat case_bool_decide; simplify_eq;
             repeat split; intros; try lia; try done;
             rewrite ?lookup_insert_is_Some'; eauto |
             intros Hdb; repeat apply service_schema_insert; simpl; eauto]).
  all: match goal with
       | H : ?x = None, H' : is_Some ?x |- _ =>
           rewrite H in H'; by destruct H'
       end.
Qed.

(** The handler has four responses. *)
Lemma process_file_responses (w : world) (data : gmap string json)
    (h : list event) (db db' : gmap string collection_data) (resp : response)
    (t : list event) :
  process_file w data h db = (Ok resp, db', t) ->
  resp = missing_response \/
  (exists fk, data !! "file_key" = Some (JStr fk) /\
              length (split slash fk) < 3 /\
              resp = invalid_path_response fk) \/
  (exists fk, data !! "file_key" = Some (JStr fk) /\
              resp = success_response fk) \/
  (exists e, resp = insert_error_response e).
Proof.
  intros Hrun. unfold_handler. split_paths.
  all: try (left; reflexivity).
  all: try (do 3 right; eexists; reflexivity).
  all: try (resolved_path fk p s rest; right; right; left;
            exists fk; split; [assumption | reflexivity]).
  all: match goal with
       | Hsplit : json_split (dict_get _ _) _ = Ok _ |- _ =>
           destruct (json_split_inv _ _ _ Hsplit) as (fk & Hk & ->)
       end.
  all: right; left; exists fk; rewrite Hk; repeat split;
    [by apply dict_get_str | by apply Nat.ltb_lt].
Qed.

(** ** The vector handed to [insert] *)

(** C2: whatever is passed to [insert] is a batch of one row holding one
    vector, the embedding that the model returned for the fetched text, be
    it a numpy array or a native list. *)
Theorem insert_single_row_batch (w : world) (data : gmap string json)
    (h : list event) (db db' : gmap string collection_data)
    (r : result response) (t : list event) (n : string)
    (d : list (list (list float))) (res : option exn) :
  process_file w data h db = (r, db', t) ->
  In (Ev (Insert n d) res) t ->
  exists text emb,
    In (Ev (ModelEncode text) None) t /\ model_encode w text = Ok emb /\
    d = [[embedding_values emb]] /\
    (forall a, emb = NdArray a -> d = [[tolist a]]) /\
    (forall l, emb = PyList l -> d = [[l]]).
Proof.
  intros Hrun Hin.
  destruct (process_file_calls _ _ _ _ _ _ _ Hrun)
    as [Hnone | (fk & p & s & rest & text & emb
                 & _ & _ & _ & Henc & Hemb & Hall)].
  - rewrite List.Forall_forall in Hnone. apply Hnone in Hin. discriminate.
  - rewrite List.Forall_forall in Hall. apply Hall in Hin as [_ ->].
    exists text, emb. repeat split; auto; now intros ? ->.
Qed.

Lemma insert_single_row_batch_witness :
  exists text emb,
    In (Ev (ModelEncode text) None)
       (process_file docs_world readme_request [] ∅).2 /\
    model_encode docs_world text = Ok emb /\
    [[hello_vector]] = [[embedding_values emb]] /\
    (forall a, emb = NdArray a -> [[hello_vector]] = [[tolist a]]) /\
    (forall l, emb = PyList l -> [[hello_vector]] = [[l]]).
Proof.
  apply (insert_single_row_batch docs_world readme_request [] ∅
           (process_file docs_world readme_request [] ∅).1.2
           (process_file docs_world readme_request [] ∅).1.1
           (process_file docs_world readme_request [] ∅).2
           "teamA_notes" [[hello_vector]] None).
  - vm_compute. reflexivity.
  - vm_compute. do 6 right. left. reflexivity.
Defined.

(** ** The collection a key resolves to *)

Lemma process_file_targets (w : world) (data : gmap string json)
    (h : list event) (db : gmap string collection_data) (fk p s : string)
    (rest : list string) :
  data !! "file_key" = Some (JStr fk) ->
  split slash fk = p :: s :: rest ->
  Forall (targets (p +:+ "_" +:+ s)) (process_file w data h db).2.
Proof.
  intros Hk Hsplit.
  destruct (process_file w data h db) as [[r db'] t] eqn:Hrun.
  destruct (process_file_calls _ _ _ _ _ _ _ Hrun)
    as [Hnone | (fk' & p' & s' & rest' & text & emb
                 & Hk' & Hsplit' & _ & _ & _ & Hall)];
    simpl.
  - eapply Forall_impl; [exact Hnone|].
    intros [c res] Hc m. destruct c; simpl in *; congruence.
  - rewrite Hk in Hk'. injection Hk' as <-.
    rewrite Hsplit in Hsplit'. injection Hsplit' as <- <- <-.
    eapply Forall_impl; [exact Hall|].
    intros [c res] Hc m. simpl in *.
    destruct c; simpl in *; intros [= <-]; tauto.
Qed.

(** With the collaborators of S3 and of the model answering, the first call
    to Milvus asks for the collection named after the first two segments. *)
Lemma process_file_resolves (w : world) (data : gmap string json)
    (h : list event) (db : gmap string collection_data) (b : json)
    (fk p s : string)
    (rest : list string) (obj : file_obj) (raw : list Byte.byte)
    (text : string) (emb : embedding) :
  data !! "bucket_name" = Some b -> truthy b = true ->
  data !! "file_key" = Some (JStr fk) ->
  split slash fk = p :: s :: rest -> rest <> [] ->
  s3_get_object w b (JStr fk) = Ok obj -> Body_read obj = Ok raw ->
  bytes_decode w raw = Ok text -> model_encode w text = Ok emb ->
  exists res t',
    (process_file w data h db).2 =
      Ev (S3GetObject b (JStr fk)) None :: Ev S3BodyRead None ::
      Ev (ModelEncode text) None ::
      Ev (HasCollection (p +:+ "_" +:+ s)) res :: t'.
Proof.
  intros Hb Hbt Hk Hsplit Hrest Hget Hread Hdec Henc.
  pose proof (split_cons_truthy _ _ _ _ Hsplit) as Hkt.
  destruct rest as [|x rest]; [done|].
  destruct (process_file w data h db) as [[r db'] t] eqn:Hrun. simpl.
  revert Hrun. enter_handler Hb Hbt Hk Hkt.
  unfold bind at 1, extern at 1. rewrite Hget.
  unfold bind at 1, extern at 1. rewrite Hread.
  unfold bind at 1, lift at 1. rewrite Hdec.
  unfold bind at 1, extern at 1. rewrite Henc.
  unfold json_split. rewrite Hsplit.
  intros Hrun. unfold_handler. split_paths; simpl; eauto.
Qed.

(** C4: for a key with at least three segments, every call that a request
    makes to Milvus names the collection [first_second]; this does not depend
    on the bucket, on what the collaborators answer or on the state of the
    server, so two requests with the same key resolve to the same
    collection.  When S3 and the model answer, the collection is asked for. *)
Theorem collection_identity (w1 w2 : world) (data1 data2 : gmap string json)
    (h1 h2 : list event)
    (db1 db2 : gmap string collection_data) (fk p s : string)
    (rest : list string) :
  data1 !! "file_key" = Some (JStr fk) ->
  data2 !! "file_key" = Some (JStr fk) ->
  split slash fk = p :: s :: rest -> rest <> [] ->
  Forall (targets (p +:+ "_" +:+ s)) (process_file w1 data1 h1 db1).2 /\
  Forall (targets (p +:+ "_" +:+ s)) (process_file w2 data2 h2 db2).2 /\
  (forall b obj raw text emb,
     data1 !! "bucket_name" = Some b -> truthy b = true ->
     s3_get_object w1 b (JStr fk) = Ok obj -> Body_read obj = Ok raw ->
     bytes_decode w1 raw = Ok text -> model_encode w1 text = Ok emb ->
     exists res, In (Ev (HasCollection (p +:+ "_" +:+ s)) res)
                    (process_file w1 data1 h1 db1).2).
Proof.
  intros Hk1 Hk2 Hsplit Hrest. repeat split.
  - eapply process_file_targets; eauto.
  - eapply process_file_targets; eauto.
  - intros b obj raw text emb Hb Hbt Hget Hread Hdec Henc.
    destruct (process_file_resolves w1 data1 h1 db1 _ _ _ _ _ _ _ _ _
                Hb Hbt Hk1 Hsplit Hrest Hget Hread Hdec Henc)
      as (res & t' & ->).
    exists res. simpl. auto.
Qed.

Lemma collection_identity_witness :
  Forall (targets ("teamA" +:+ "_" +:+ "notes"))
         (process_file docs_world readme_request [] ∅).2 /\
  Forall (targets ("teamA" +:+ "_" +:+ "notes"))
         (process_file narrow_world
            (attic_request "teamA/notes/readme.txt") [] ∅).2 /\
  (forall b obj raw text emb,
     readme_request !! "bucket_name" = Some b -> truthy b = true ->
     s3_get_object docs_world b (JStr "teamA/notes/readme.txt") = Ok obj ->
     Body_read obj = Ok raw ->
     bytes_decode docs_world raw = Ok text ->
     model_encode docs_world text = Ok emb ->
     exists res, In (Ev (HasCollection ("teamA" +:+ "_" +:+ "notes")) res)
                    (process_file docs_world readme_request [] ∅).2).
Proof.
  apply (collection_identity docs_world narrow_world readme_request
           (attic_request "teamA/notes/readme.txt") [] [] ∅ ∅
           "teamA/notes/readme.txt" "teamA" "notes" ["readme.txt"]).
  - vm_compute. reflexivity.
  - vm_compute. reflexivity.
  - reflexivity.
  - discriminate.
Defined.

(** ** Empty segments *)

(** C10: the check counts the segments and does not look into them.  A key
    with at least three segments is never answered [Invalid file path], and
    the collection asked for is named after its first two segments, empty or
    not. *)
Theorem empty_segments_accepted (w : world) (data : gmap string json)
    (h : list event) (db : gmap string collection_data) (fk p s : string)
    (rest : list string) :
  data !! "file_key" = Some (JStr fk) ->
  split slash fk = p :: s :: rest -> rest <> [] ->
  (process_file w data h db).1.1 <>
    Ok (mkResponse [("error", "Invalid file path: " +:+ fk)] 400) /\
  (forall b obj raw text emb,
     data !! "bucket_name" = Some b -> truthy b = true ->
     s3_get_object w b (JStr fk) = Ok obj -> Body_read obj = Ok raw ->
     bytes_decode w raw = Ok text -> model_encode w text = Ok emb ->
     exists res t',
       (process_file w data h db).2 =
         Ev (S3GetObject b (JStr fk)) None :: Ev S3BodyRead None ::
         Ev (ModelEncode text) None ::
         Ev (HasCollection (p +:+ "_" +:+ s)) res :: t').
Proof.
  intros Hk Hsplit Hrest. split.
  - destruct (process_file w data h db) as [[r db'] t] eqn:Hrun. simpl.
    intros ->.
    destruct (process_file_responses _ _ _ _ _ _ _ Hrun)
      as [Hresp | [(fk' & Hk' & Hlen & _) | [(fk' & _ & Hresp) | (e & Hresp)]]].
    + vm_compute in Hresp. discriminate.
    + rewrite Hk in Hk'. injection Hk' as <-.
      rewrite Hsplit in Hlen. destruct rest; [done | simpl in Hlen; lia].
    + discriminate.
    + discriminate.
  - intros b obj raw text emb Hb Hbt Hget Hread Hdec Henc.
    eapply process_file_resolves; eauto.
Qed.

Lemma empty_segments_accepted_witness :
  (process_file docs_world gap_request [] ∅).1.1 <>
    Ok (mkResponse [("error", "Invalid file path: " +:+ "a//file")] 400) /\
  (forall b obj raw text emb,
     gap_request !! "bucket_name" = Some b ->
     truthy b = true ->
     s3_get_object docs_world b (JStr "a//file") = Ok obj ->
     Body_read obj = Ok raw ->
     bytes_decode docs_world raw = Ok text ->
     model_encode docs_world text = Ok emb ->
     exists res t',
       (process_file docs_world gap_request [] ∅).2 =
         Ev (S3GetObject b (JStr "a//file")) None :: Ev S3BodyRead None ::
         Ev (ModelEncode text) None ::
         Ev (HasCollection ("a" +:+ "_" +:+ "")) res :: t').
Proof.
  apply (empty_segments_accepted docs_world gap_request [] ∅
           "a//file" "a" "" ["file"]).
  - vm_compute. reflexivity.
  - reflexivity.
  - discriminate.
Defined.

Example empty_segments_run :
  map_to_list (process_file docs_world gap_request [] ∅).1.2 =
    [("a_", mkData collection_schema [hello_vector] [])] /\
  map_to_list (process_file docs_world rooted_request [] ∅).1.2 =
    [("_b", mkData collection_schema [hello_vector] [])] /\
  (process_file docs_world rooted_request [] ∅).1.1 =
    Ok (success_response "/b/file").
Proof. vm_compute. repeat split. Qed.

(** ** Creating a collection once *)

Lemma created_app (n : string) (t1 t2 : list event) :
  created n (t1 ++ t2) = created n t1 + created n t2.
Proof. unfold created. now rewrite List.filter_app, List.length_app. Qed.

Lemma creation_calls_app (n : string) (t1 t2 : list event) :
  creation_calls n (t1 ++ t2) = creation_calls n t1 + creation_calls n t2.
Proof. unfold creation_calls. now rewrite List.filter_app, List.length_app. Qed.

Lemma created_le_calls (n : string) (t : list event) :
  created n t <= creation_calls n t.
Proof.
  unfold created, creation_calls.
  induction t as [|[c res] t IH]; simpl; [lia|].
  unfold is_created at 1. simpl.
  destruct res, (is_create n (Ev c _)); simpl; lia.
Qed.

(** C5: when the collection of a prefix exists, [create_or_get_collection]
    issues no creation call, leaves the server as it is and returns a handle
    to that collection (if the server answers).  Hence, of two requests
    served one after the other for keys under the same prefix, at most one
    creates the collection, and none does if it was there before. *)
Theorem resolve_idempotent :
  (forall w p s h db c,
     db !! (p +:+ "_" +:+ s) = Some c ->
     let '(r, db', t) := create_or_get_collection w p s h db in
     db' = db /\
     (forall n, creation_calls n t = 0) /\
     (forall handle, r = Ok handle ->
        handle = mkCollection (p +:+ "_" +:+ s)) /\
     (Forall (fun ev => ev_raised ev = None) t ->
      r = Ok (mkCollection (p +:+ "_" +:+ s)))) /\
  (forall w1 w2 data1 data2 h db fk1 fk2 p s rest1 rest2,
     data1 !! "file_key" = Some (JStr fk1) ->
     data2 !! "file_key" = Some (JStr fk2) ->
     split slash fk1 = p :: s :: rest1 ->
     split slash fk2 = p :: s :: rest2 ->
     let '(r1, db1, t1) := process_file w1 data1 h db in
     let '(r2, db2, t2) := process_file w2 data2 (h ++ t1)%list db1 in
     Forall (targets (p +:+ "_" +:+ s)) (t1 ++ t2) /\
     created (p +:+ "_" +:+ s) (t1 ++ t2) <= 1 /\
     (created (p +:+ "_" +:+ s) t1 = 1 ->
      creation_calls (p +:+ "_" +:+ s) t2 = 0) /\
     (is_Some (db !! (p +:+ "_" +:+ s)) ->
      creation_calls (p +:+ "_" +:+ s) (t1 ++ t2) = 0)).
Proof.
  split.
  - intros w p s h db c Hc.
    unfold create_or_get_collection, has_collection, Collection_open,
      num_entities, milvus, bind, ret.
    destruct (milvus_fault w h db (HasCollection _)) as [e|]; simpl.
    { repeat split; auto; try congruence.
      intros Hquiet. apply Forall_cons in Hquiet as [[=] _]. }
    rewrite Hc; simpl.
    destruct (milvus_fault w _ db (CollectionOpen _)) as [e|]; simpl.
    { repeat split; auto; try congruence.
      intros Hquiet. apply Forall_cons in Hquiet as [_ Hquiet].
      apply Forall_cons in Hquiet as [[=] _]. }
    rewrite Hc; simpl.
    destruct (milvus_fault w _ db (NumEntities _)) as [e|]; simpl;
      rewrite ?Hc; simpl; repeat split; auto; try congruence.
    intros Hquiet. do 2 apply Forall_cons in Hquiet as [_ Hquiet].
    apply Forall_cons in Hquiet as [[=] _].
  - intros w1 w2 data1 data2 h db fk1 fk2 p s rest1 rest2 Hk1 Hk2 Hs1 Hs2.
    pose proof (process_file_targets w1 data1 h db _ _ _ _ Hk1 Hs1) as Ht1.
    destruct (process_file w1 data1 h db) as [[r1 db1] t1] eqn:Hrun1.
    pose proof (process_file_targets w2 data2 (h ++ t1)%list db1
                  _ _ _ _ Hk2 Hs2) as Ht2.
    destruct (process_file w2 data2 (h ++ t1)%list db1)
      as [[r2 db2] t2] eqn:Hrun2.
    simpl in Ht1, Ht2.
    set (n := p +:+ "_" +:+ s) in *.
    destruct (process_file_effect _ _ _ _ _ _ _ Hrun1) as [Heff1 _].
    destruct (process_file_effect _ _ _ _ _ _ _ Hrun2) as [Heff2 _].
    destruct (Heff1 n) as (Hkeep1 & Hle1 & Hnew1).
    destruct (Heff2 n) as (Hkeep2 & Hle2 & _).
    pose proof (created_le_calls n t2) as Hcc.
    rewrite created_app, creation_calls_app.
    split; [by apply Forall_app|].
    split; [|split].
    + destruct (decide (created n t1 = 1)) as [H1|H1]; [|lia].
      destruct (Hkeep2 (Hnew1 H1)) as [_ H0]. lia.
    + intros H1. by destruct (Hkeep2 (Hnew1 H1)).
    + intros Hdb. destruct (Hkeep1 Hdb) as [Hdb1 ->].
      by destruct (Hkeep2 Hdb1) as [_ ->].
Qed.

Lemma resolve_idempotent_witness :
  creation_calls "teamA_notes"
    (create_or_get_collection docs_world "teamA" "notes"
       (process_file docs_world readme_request [] ∅).2
       (process_file docs_world readme_request [] ∅).1.2).2 = 0 /\
  created ("teamA" +:+ "_" +:+ "notes")
    ((process_file docs_world readme_request [] ∅).2 ++
     (process_file docs_world todo_request
        (process_file docs_world readme_request [] ∅).2
        (process_file docs_world readme_request [] ∅).1.2).2) <= 1.
Proof.
  destruct resolve_idempotent as [Hget Htwice]. split.
  - specialize (Hget docs_world "teamA" "notes"
                  (process_file docs_world readme_request [] ∅).2
                  (process_file docs_world readme_request [] ∅).1.2
                  (mkData collection_schema [hello_vector] [])).
    destruct (create_or_get_collection docs_world "teamA" "notes" _ _)
      as [[r db'] t].
    apply Hget. vm_compute. reflexivity.
  - specialize (Htwice docs_world docs_world readme_request todo_request [] ∅
                  "teamA/notes/readme.txt" "teamA/notes/todo.txt"
                  "teamA" "notes" ["readme.txt"] ["todo.txt"]).
    destruct (process_file docs_world readme_request [] ∅) as [[r1 db1] t1].
    simpl in *.
    destruct (process_file docs_world todo_request t1 db1) as [[r2 db2] t2].
    apply Htwice; vm_compute; reflexivity.
Defined.

(** ** One schema *)

Lemma collection_schema_shape : schema_shape collection_schema.
Proof. do 2 eexists. repeat split. Qed.

Lemma create_or_get_collection_creates (w : world) (p s : string)
    (h : list event) (db : gmap string collection_data) (n : string)
    (sch : CollectionSchema) (res : option exn) :
  In (Ev (CollectionCreate n sch) res)
     (create_or_get_collection w p s h db).2 ->
  n = p +:+ "_" +:+ s /\ sch = collection_schema.
Proof.
  destruct (create_or_get_collection w p s h db) as [[r db'] t] eqn:Hrun.
  unfold create_or_get_collection, has_collection, Collection_open,
    Collection_create, num_entities, milvus, bind, ret in Hrun.
  split_paths; simpl; intros Hin; in_trace; auto.
Qed.

Lemma process_file_creates (w : world) (data : gmap string json)
    (h : list event) (db : gmap string collection_data) (n : string)
    (sch : CollectionSchema) (res : option exn) :
  In (Ev (CollectionCreate n sch) res) (process_file w data h db).2 ->
  sch = collection_schema.
Proof.
  destruct (process_file w data h db) as [[r db'] t] eqn:Hrun. simpl.
  intros Hin.
  destruct (process_file_calls _ _ _ _ _ _ _ Hrun)
    as [Hnone | (fk & p & s & rest & text & emb & _ & _ & _ & _ & _ & Hall)].
  - rewrite List.Forall_forall in Hnone. apply Hnone in Hin. discriminate.
  - rewrite List.Forall_forall in Hall. by apply Hall in Hin as [_ ->].
Qed.

Lemma serve_schema (reqs : list (world * gmap string json))
    (h : list event) (db : gmap string collection_data) :
  service_schema db ->
  service_schema (serve reqs h db).1.2 /\
  (forall n sch res,
     In (Ev (CollectionCreate n sch) res) (serve reqs h db).2 ->
     sch = collection_schema).
Proof.
  revert h db. induction reqs as [|[w data] reqs IH]; intros h db Hdb; simpl.
  - split; [assumption | intros ? ? ? []].
  - pose proof (process_file_creates w data h db) as Hcreate.
    destruct (process_file w data h db) as [[r db1] t1] eqn:Hrun.
    destruct (process_file_effect _ _ _ _ _ _ _ Hrun) as [_ Hkeep].
    destruct (IH (h ++ t1)%list db1 (Hkeep Hdb)) as [Hdb2 Hrest].
    destruct (serve reqs (h ++ t1)%list db1) as [[rs db2] t2]. simpl in *.
    split; [assumption|].
    intros n sch res Hin. apply in_app_or in Hin as [Hin | Hin]; eauto.
Qed.

(** C6: the schema that [create_or_get_collection] creates with is always
    the same: an INT64 primary key generated by the server and one float
    vector of dimension 768.  Whatever requests a server that starts empty
    is given, its collections all have that schema. *)
Theorem one_schema_shape :
  schema_shape collection_schema /\
  (forall w p s h db n sch res,
     In (Ev (CollectionCreate n sch) res)
        (create_or_get_collection w p s h db).2 ->
     sch = collection_schema) /\
  (forall reqs,
     let '(rs, db, t) := serve reqs [] ∅ in
     (forall n d, db !! n = Some d -> coll_schema d = collection_schema) /\
     (forall n sch res,
        In (Ev (CollectionCreate n sch) res) t -> sch = collection_schema)).
Proof.
  split; [exact collection_schema_shape|]. split.
  - intros w p s h db n sch res Hin.
    by destruct (create_or_get_collection_creates _ _ _ _ _ _ _ _ Hin).
  - intros reqs.
    assert (service_schema (∅ : gmap string collection_data)) as Hempty
      by (intros m d Hm; by rewrite lookup_empty in Hm).
    destruct (serve_schema reqs [] ∅ Hempty) as [Hdb Hcreate].
    destruct (serve reqs [] ∅) as [[rs db] t]. split; assumption.
Qed.

(** ** Success and failure of the insert stage *)

(** C7: a request that reached [insert] and none of whose calls raised is
    answered 200 with the message naming the key that was submitted. *)
Theorem success_names_file_key (w : world) (data : gmap string json)
    (h : list event) (db db' : gmap string collection_data)
    (r : result response) (t : list event) (n : string)
    (d : list (list (list float))) :
  process_file w data h db = (r, db', t) ->
  In (Ev (Insert n d) None) t ->
  Forall (fun ev => ev_raised ev = None) t ->
  exists fk,
    data !! "file_key" = Some (JStr fk) /\
    r = Ok (mkResponse
              [("message", "Successfully inserted vector for " +:+ fk)] 200).
Proof.
  intros Hrun Hin Hquiet. unfold_handler. split_paths.
  all: in_trace.
  all: resolved_path fk p s rest; exists fk; split; [assumption | reflexivity].
Qed.

Lemma success_names_file_key_witness :
  exists fk,
    readme_request !! "file_key" = Some (JStr fk) /\
    (process_file docs_world readme_request [] ∅).1.1 =
      Ok (mkResponse
            [("message", "Successfully inserted vector for " +:+ fk)] 200).
Proof.
  apply (success_names_file_key docs_world readme_request [] ∅
           (process_file docs_world readme_request [] ∅).1.2
           (process_file docs_world readme_request [] ∅).1.1
           (process_file docs_world readme_request [] ∅).2
           "teamA_notes" [[hello_vector]]).
  - vm_compute. reflexivity.
  - vm_compute. do 6 right. left. reflexivity.
  - vm_compute. repeat constructor.
Defined.

(** C8: an exception raised by [insert] or by [flush] is caught and answered
    500 with [Error inserting vector: ] followed by its text.  An exception
    raised while fetching the object, reading or decoding its body, or
    computing the embedding is not caught: it leaves the handler. *)
Theorem insert_failure_caught (w : world) (data : gmap string json)
    (h : list event) (db db' : gmap string collection_data)
    (r : result response) (t : list event) :
  process_file w data h db = (r, db', t) ->
  (forall n d e, In (Ev (Insert n d) (Some e)) t ->
     r = Ok (mkResponse
               [("error", "Error inserting vector: " +:+ exn_str e)] 500)) /\
  (forall n e, In (Ev (Flush n) (Some e)) t ->
     r = Ok (mkResponse
               [("error", "Error inserting vector: " +:+ exn_str e)] 500)) /\
  (forall b k e, In (Ev (S3GetObject b k) (Some e)) t -> r = Raise e) /\
  (forall e, In (Ev S3BodyRead (Some e)) t -> r = Raise e) /\
  (forall text e, In (Ev (ModelEncode text) (Some e)) t -> r = Raise e) /\
  (forall obj raw e,
     truthy (dict_get data "bucket_name") = true ->
     truthy (dict_get data "file_key") = true ->
     s3_get_object w (dict_get data "bucket_name") (dict_get data "file_key")
       = Ok obj ->
     Body_read obj = Ok raw -> bytes_decode w raw = Raise e ->
     r = Raise e).
Proof.
  intros Hrun. unfold_handler. split_paths.
  all: repeat split; intros; in_trace; try reflexivity.
  all: repeat match goal with
              | H : truthy _ = true |- _ => rewrite H in *
              end; simpl in *; congruence.
Qed.

Lemma insert_failure_caught_witness :
  (process_file narrow_world readme_request [] ∅).1.1 =
    Ok (mkResponse
          [("error", "Error inserting vector: " +:+
                     exn_str dimension_mismatch)] 500).
Proof.
  destruct (insert_failure_caught narrow_world readme_request [] ∅
              (process_file narrow_world readme_request [] ∅).1.2
              (process_file narrow_world readme_request [] ∅).1.1
              (process_file narrow_world readme_request [] ∅).2)
    as [Hinsert _].
  - vm_compute. reflexivity.
  - apply (Hinsert "teamA_notes" [[[0.25; -1.5; 3]%float]]).
    vm_compute. do 6 right. left. reflexivity.
Defined.

(** A bucket that does not exist: the exception of the fetch leaves the
    handler, no response is built. *)
Example fetch_failure_escapes :
  process_file docs_world (attic_request "a/b/c.txt") [] ∅ =
    (Raise no_such_bucket, ∅,
     [Ev (S3GetObject (JStr "attic") (JStr "a/b/c.txt"))
         (Some no_such_bucket)]).
Proof. vm_compute. reflexivity. Qed.

(** * More of the module *)

(** ** The connection made at load time *)

(** X1: the connection is made with a user and a password together or with
    neither: both are passed exactly when MILVUS_USER and MILVUS_PASSWORD
    are both set and not empty, and then they are the values of the
    environment. *)
Theorem credentials_all_or_nothing (environ : gmap string string) :
  let c := connect_on_load environ in
  (user c = None <-> password c = None) /\
  (user c <> None <->
   exists u p, environ !! "MILVUS_USER" = Some u /\ u <> "" /\
               environ !! "MILVUS_PASSWORD" = Some p /\ p <> "") /\
  (forall u, user c = Some u -> environ !! "MILVUS_USER" = Some u) /\
  (forall p, password c = Some p -> environ !! "MILVUS_PASSWORD" = Some p).
Proof.
  unfold connect_on_load, getenv.
  destruct (environ !! "MILVUS_USER") as [[|cu u]|] eqn:Hu;
    destruct (environ !! "MILVUS_PASSWORD") as [[|cp p]|] eqn:Hp; simpl;
    repeat split; try congruence; try (intros; exfalso; congruence).
  all: try (intros (u' & p' & ? & ? & ? & ?); congruence).
  intros _. eauto 10.
Qed.

Lemma connect_on_load_target (environ : gmap string string) :
  alias (connect_on_load environ) = "default" /\
  host (connect_on_load environ) =
    getenv_default environ "MILVUS_HOST" "localhost" /\
  port (connect_on_load environ) =
    getenv_default environ "MILVUS_PORT" "19530".
Proof.
  unfold connect_on_load.
  destruct (str_truthy _ && str_truthy _); repeat split.
Qed.

(** X2: the alias is always [default]; host and port are the values of
    MILVUS_HOST and MILVUS_PORT when these are set, even to the empty
    string, and [localhost] and [19530] only when they are not set; they do
    not depend on the credentials. *)
Theorem connection_target (environ : gmap string string) :
  let c := connect_on_load environ in
  alias c = "default" /\
  (forall v, environ !! "MILVUS_HOST" = Some v -> host c = v) /\
  (environ !! "MILVUS_HOST" = None -> host c = "localhost") /\
  (forall v, environ !! "MILVUS_PORT" = Some v -> port c = v) /\
  (environ !! "MILVUS_PORT" = None -> port c = "19530") /\
  (forall u p,
     host (connect_on_load (<["MILVUS_USER" := u]>
                              (<["MILVUS_PASSWORD" := p]> environ))) = host c /\
     port (connect_on_load (<["MILVUS_USER" := u]>
                              (<["MILVUS_PASSWORD" := p]> environ))) = port c).
Proof.
  destruct (connect_on_load_target environ) as (Ha & Hh & Hp).
  cbn zeta. rewrite Ha, Hh, Hp. unfold getenv_default.
  repeat split.
  - by intros v ->.
  - by intros ->.
  - by intros v ->.
  - by intros ->.
  - destruct (connect_on_load_target
                (<["MILVUS_USER" := u]> (<["MILVUS_PASSWORD" := p]> environ)))
      as (_ & -> & _).
    unfold getenv_default. by simplify_map_eq.
  - destruct (connect_on_load_target
                (<["MILVUS_USER" := u]> (<["MILVUS_PASSWORD" := p]> environ)))
      as (_ & _ & ->).
    unfold getenv_default. by simplify_map_eq.
Qed.

Example connect_secured :
  connect_on_load secured_environ =
    mkConnect "default" "milvus.internal" "19530"
              (Some "ingest") (Some "s3cret") /\
  connect_on_load (<["MILVUS_PASSWORD" := ""]> secured_environ) =
    mkConnect "default" "milvus.internal" "19530" None None /\
  connect_on_load (<["MILVUS_HOST" := ""]> ∅) =
    mkConnect "default" "" "19530" None None.
Proof. vm_compute. repeat split. Qed.

(** ** [create_or_get_collection] on its own *)

(** X3: when the collection does not exist, [create_or_get_collection] asks
    whether it exists and then creates it with the schema of the service,
    and makes no other call (the entity count is not read); if both calls
    return, the handle is returned and the server has the new, empty
    collection; if one raises, the server is unchanged. *)
Theorem create_when_absent (w : world) (p s : string) (h : list event)
    (db : gmap string collection_data) :
  db !! (p +:+ "_" +:+ s) = None ->
  let n := p +:+ "_" +:+ s in
  let '(r, db', t) := create_or_get_collection w p s h db in
  map ev_call t `prefix_of`
    [HasCollection n; CollectionCreate n collection_schema] /\
  (Forall returned t ->
   r = Ok (mkCollection n) /\
   db' = <[n := mkData collection_schema [] []]> db /\
   map ev_call t = [HasCollection n; CollectionCreate n collection_schema]) /\
  (forall e, r = Raise e -> db' = db).
Proof.
  intros Hn n. subst n.
  destruct (create_or_get_collection w p s h db) as [[r db'] t] eqn:Hrun.
  unfold create_or_get_collection, has_collection, Collection_open,
    Collection_create, num_entities, milvus, bind, ret in Hrun.
  rewrite Hn in Hrun. split_paths.
  all: unfold returned; repeat split; try congruence;
    try (eexists; reflexivity); try (in_trace; fail).
Qed.

Lemma create_when_absent_witness :
  let n := "teamA" +:+ "_" +:+ "notes" in
  let '(r, db', t) :=
    create_or_get_collection docs_world "teamA" "notes" [] ∅ in
  map ev_call t `prefix_of`
    [HasCollection n; CollectionCreate n collection_schema] /\
  (Forall returned t ->
   r = Ok (mkCollection n) /\
   db' = <[n := mkData collection_schema [] []]> ∅ /\
   map ev_call t = [HasCollection n; CollectionCreate n collection_schema]) /\
  (forall e, r = Raise e -> db' = ∅).
Proof.
  apply (create_when_absent docs_world "teamA" "notes" [] ∅).
  apply lookup_empty.
Defined.

(** X4: whenever [create_or_get_collection] returns, the handle names
    [parent_subfolder] and that collection exists; when it raises, the
    server is unchanged.  It never touches another collection, never drops
    or alters an existing one, every call it makes names [parent_subfolder],
    and only its last call may have raised. *)
Theorem create_or_get_collection_contract (w : world) (p s : string)
    (h : list event) (db : gmap string collection_data) :
  let n := p +:+ "_" +:+ s in
  let '(r, db', t) := create_or_get_collection w p s h db in
  (forall c, r = Ok c -> collection_name c = n /\ is_Some (db' !! n)) /\
  (forall e, r = Raise e -> db' = db) /\
  (forall m, m <> n -> db' !! m = db !! m) /\
  (forall m d, db !! m = Some d -> db' !! m = Some d) /\
  Forall (targets n) t /\
  Forall returned (removelast t).
Proof.
  intros n. subst n.
  destruct (create_or_get_collection w p s h db) as [[r db'] t] eqn:Hrun.
  unfold create_or_get_collection, has_collection, Collection_open,
    Collection_create, num_entities, milvus, bind, ret in Hrun.
  split_paths.
  all: repeat split; try congruence; try (intros; by simplify_map_eq).
  all: try (intros c [= <-]; split; [reflexivity | by simplify_map_eq]).
  all: try (repeat constructor; by intros ? [= <-]).
  all: try (intros m d Hm; destruct (decide (m = p +:+ "_" +:+ s));
            by simplify_map_eq).
Qed.

(** ** Validation, seen from the trace *)

(** X5: when one of the two fields is falsy (absent, null, false, zero, empty
    string, list or object) the handler answers [missing_response] and makes
    no call; when both are truthy, whatever their type, it never answers
    [missing_response] and its first call is [get_object] on the two values
    as they came. *)
Theorem fetch_iff_both_fields_truthy (w : world) (data : gmap string json)
    (h : list event) (db db' : gmap string collection_data)
    (r : result response) (t : list event) :
  process_file w data h db = (r, db', t) ->
  let bucket_name := dict_get data "bucket_name" in
  let file_key := dict_get data "file_key" in
  (truthy bucket_name && truthy file_key = false ->
   r = Ok missing_response /\ db' = db /\ t = []) /\
  (truthy bucket_name && truthy file_key = true ->
   r <> Ok missing_response /\
   exists res t', t = Ev (S3GetObject bucket_name file_key) res :: t').
Proof.
  intros Hrun bucket_name file_key. subst bucket_name file_key.
  unfold_handler. split_paths.
  all: split; intros Htruthy;
    try (destruct (truthy (dict_get data "bucket_name")),
                  (truthy (dict_get data "file_key")); discriminate).
  all: try (repeat split; fail).
  all: split; [|simpl; eauto].
  all: try discriminate.
  all: intros [= Hbody]; revert Hbody; unfold String.append; discriminate.
Qed.

Lemma fetch_iff_both_fields_truthy_witness :
  let bucket_name := dict_get number_request "bucket_name" in
  let file_key := dict_get number_request "file_key" in
  (truthy bucket_name && truthy file_key = false ->
   (process_file docs_world number_request [] ∅).1.1 = Ok missing_response /\
   (process_file docs_world number_request [] ∅).1.2 = ∅ /\
   (process_file docs_world number_request [] ∅).2 = []) /\
  (truthy bucket_name && truthy file_key = true ->
   (process_file docs_world number_request [] ∅).1.1 <> Ok missing_response /\
   exists res t',
     (process_file docs_world number_request [] ∅).2 =
       Ev (S3GetObject bucket_name file_key) res :: t').
Proof.
  apply (fetch_iff_both_fields_truthy docs_world number_request [] ∅
           (process_file docs_world number_request [] ∅).1.2
           (process_file docs_world number_request [] ∅).1.1
           (process_file docs_world number_request [] ∅).2).
  vm_compute. reflexivity.
Defined.

(** X6: a [file_key] that is truthy but not a string never gets a response:
    the key is handed to S3 as it is, and an exception leaves the handler,
    from S3 or the model or, when these answer, the [AttributeError] of
    [split]; no call is made to Milvus. *)
Theorem non_string_key_never_answered (w : world) (data : gmap string json)
    (h : list event) (db db' : gmap string collection_data)
    (r : result response) (t : list event) (b k : json) :
  process_file w data h db = (r, db', t) ->
  data !! "bucket_name" = Some b -> truthy b = true ->
  data !! "file_key" = Some k -> truthy k = true ->
  (forall s, k <> JStr s) ->
  (exists e, r = Raise e) /\ db' = db /\
  Forall (fun ev => is_milvus_call (ev_call ev) = false) t /\
  (exists res t', t = Ev (S3GetObject b k) res :: t') /\
  (forall obj raw text emb,
     s3_get_object w b k = Ok obj -> Body_read obj = Ok raw ->
     bytes_decode w raw = Ok text -> model_encode w text = Ok emb ->
     r = Raise (PyExn "AttributeError"
                  ("'" +:+ type_name k +:+
                   "' object has no attribute 'split'"))).
Proof.
  intros Hrun Hb Hbt Hk Hkt Hstr. revert Hrun.
  enter_handler Hb Hbt Hk Hkt.
  assert (json_split k slash =
          Raise (PyExn "AttributeError"
                   ("'" +:+ type_name k +:+
                    "' object has no attribute 'split'")))
    as -> by (destruct k; try reflexivity; by destruct (Hstr s)).
  unfold bind, extern, lift.
  destruct (s3_get_object w b k) as [obj|e] eqn:Hget; simpl.
  2: { intros [= <- <- <-]. repeat split; eauto; try congruence;
       repeat constructor. }
  destruct (Body_read obj) as [raw|e] eqn:Hread; simpl.
  2: { intros [= <- <- <-]. repeat split; eauto; try congruence;
       repeat constructor. }
  destruct (bytes_decode w raw) as [text|e] eqn:Hdec; simpl.
  2: { intros [= <- <- <-]. repeat split; eauto; try congruence;
       repeat constructor. }
  destruct (model_encode w text) as [emb|e] eqn:Henc; simpl.
  2: { intros [= <- <- <-]. repeat split; eauto; try congruence;
       repeat constructor. }
  intros [= <- <- <-]. repeat split; eauto; repeat constructor.
Qed.

Lemma non_string_key_never_answered_witness :
  (exists e, (process_file docs_world number_request [] ∅).1.1 = Raise e) /\
  (process_file docs_world number_request [] ∅).1.2 = ∅ /\
  Forall (fun ev => is_milvus_call (ev_call ev) = false)
         (process_file docs_world number_request [] ∅).2 /\
  (exists res t',
     (process_file docs_world number_request [] ∅).2 =
       Ev (S3GetObject (JStr "docs") (JInt 5)) res :: t') /\
  (forall obj raw text emb,
     s3_get_object docs_world (JStr "docs") (JInt 5) = Ok obj ->
     Body_read obj = Ok raw ->
     bytes_decode docs_world raw = Ok text ->
     model_encode docs_world text = Ok emb ->
     (process_file docs_world number_request [] ∅).1.1 =
       Raise (PyExn "AttributeError"
                ("'" +:+ type_name (JInt 5) +:+
                 "' object has no attribute 'split'"))).
Proof.
  apply (non_string_key_never_answered docs_world number_request [] ∅
           (process_file docs_world number_request [] ∅).1.2
           (process_file docs_world number_request [] ∅).1.1
           (process_file docs_world number_request [] ∅).2
           (JStr "docs") (JInt 5)).
  - vm_compute. reflexivity.
  - vm_compute. reflexivity.
  - reflexivity.
  - vm_compute. reflexivity.
  - reflexivity.
  - discriminate.
Defined.

(** X7: when S3 and the model answer, a string key is answered
    [Invalid file path] exactly when it holds fewer than two slashes. *)
Theorem path_check_counts_slashes (w : world) (data : gmap string json)
    (h : list event) (db : gmap string collection_data) (b : json)
    (fk : string) (obj : file_obj) (raw : list Byte.byte) (text : string)
    (emb : embedding) :
  data !! "bucket_name" = Some b -> truthy b = true ->
  data !! "file_key" = Some (JStr fk) -> truthy (JStr fk) = true ->
  s3_get_object w b (JStr fk) = Ok obj -> Body_read obj = Ok raw ->
  bytes_decode w raw = Ok text -> model_encode w text = Ok emb ->
  ((process_file w data h db).1.1 = Ok (invalid_path_response fk) <->
   count_sep slash fk < 2).
Proof.
  intros Hb Hbt Hk Hkt Hget Hread Hdec Henc.
  pose proof (length_split slash fk) as Hlen.
  destruct (process_file w data h db) as [[r db'] t] eqn:Hrun. simpl.
  split.
  - intros ->.
    destruct (process_file_responses _ _ _ _ _ _ _ Hrun)
      as [Hresp | [(fk' & Hk' & Hshort & _)
                  | [(fk' & _ & Hresp) | (e & Hresp)]]].
    + vm_compute in Hresp. discriminate.
    + rewrite Hk in Hk'. injection Hk' as <-. lia.
    + discriminate.
    + discriminate.
  - intros Hcount. revert Hrun. enter_handler Hb Hbt Hk Hkt.
    unfold bind, extern, lift, ret, json_split.
    rewrite Hget; simpl. rewrite Hread; simpl.
    rewrite Hdec; simpl. rewrite Henc; simpl.
    assert ((length (split slash fk) <? 3)%nat = true) as ->
      by (apply Nat.ltb_lt; lia).
    simpl. by intros [= <- _ _].
Qed.

Lemma path_check_counts_slashes_witness :
  (process_file docs_world short_request [] ∅).1.1 =
    Ok (invalid_path_response "onlyonesegment") <->
  count_sep slash "onlyonesegment" < 2.
Proof.
  apply (path_check_counts_slashes docs_world short_request [] ∅
           (JStr "docs") "onlyonesegment"
           (mkFileObj (Ok hello_bytes)) hello_bytes "hello"
           (NdArray (mkArray hello_vector))).
  - vm_compute. reflexivity.
  - reflexivity.
  - vm_compute. reflexivity.
  - reflexivity.
  - reflexivity.
  - reflexivity.
  - reflexivity.
  - reflexivity.
Defined.

(** ** Names that collide *)

Lemma append_assoc (a b c : string) : (a +:+ b) +:+ c = a +:+ (b +:+ c).
Proof.
  unfold String.append. induction a as [|x a IH]; simpl; [reflexivity|].
  fold String.append in *. by rewrite IH.
Qed.

(** X20: prefixes are joined with an underscore without escaping, so
    [a_b/c/...] and [a/b_c/...] resolve to the same collection [a_b_c]: every
    call to Milvus made for either key names it. *)
Theorem underscore_names_collide (w1 w2 : world)
    (data1 data2 : gmap string json) (h1 h2 : list event)
    (db1 db2 : gmap string collection_data) (fk1 fk2 a b c : string)
    (rest1 rest2 : list string) :
  data1 !! "file_key" = Some (JStr fk1) ->
  data2 !! "file_key" = Some (JStr fk2) ->
  split slash fk1 = (a +:+ "_" +:+ b) :: c :: rest1 ->
  split slash fk2 = a :: (b +:+ "_" +:+ c) :: rest2 ->
  Forall (targets (a +:+ "_" +:+ b +:+ "_" +:+ c))
         (process_file w1 data1 h1 db1).2 /\
  Forall (targets (a +:+ "_" +:+ b +:+ "_" +:+ c))
         (process_file w2 data2 h2 db2).2.
Proof.
  intros Hk1 Hk2 Hs1 Hs2. split.
  - pose proof (process_file_targets w1 data1 h1 db1 _ _ _ _ Hk1 Hs1) as Ht.
    by rewrite !append_assoc in Ht.
  - exact (process_file_targets w2 data2 h2 db2 _ _ _ _ Hk2 Hs2).
Qed.

Lemma underscore_names_collide_witness :
  Forall (targets ("a" +:+ "_" +:+ "b" +:+ "_" +:+ "c"))
         (process_file docs_world left_request [] ∅).2 /\
  Forall (targets ("a" +:+ "_" +:+ "b" +:+ "_" +:+ "c"))
         (process_file docs_world right_request [] ∅).2.
Proof.
  apply (underscore_names_collide docs_world docs_world
           left_request right_request [] [] ∅ ∅
           "a_b/c/x.txt" "a/b_c/y.txt" "a" "b" "c" ["x.txt"] ["y.txt"]).
  - vm_compute. reflexivity.
  - vm_compute. reflexivity.
  - reflexivity.
  - reflexivity.
Defined.

Example colliding_prefixes_share_a_collection :
  let '(rs, db, t) :=
    serve [(docs_world, left_request); (docs_world, right_request)] [] ∅ in
  map_to_list db =
    [("a_b_c", mkData collection_schema [hello_vector; hello_vector] [])] /\
  creation_calls "a_b_c" t = 1.
Proof. vm_compute. repeat split. Qed.

(** ** The order of the calls *)

Ltac follows_plan existed :=
  eexists _, _, existed, _; split;
  [ eexists; simpl; reflexivity
  | simpl; repeat constructor ].

(** The calls of a run are the first calls of [request_calls], and only the
    last one may have raised. *)
Lemma process_file_plan (w : world) (data : gmap string json)
    (h : list event) (db db' : gmap string collection_data)
    (r : result response) (t : list event) :
  process_file w data h db = (r, db', t) ->
  exists text cname existed v,
    map ev_call t `prefix_of`
      request_calls (dict_get data "bucket_name") (dict_get data "file_key")
                    text cname existed v /\
    Forall returned (removelast t).
Proof.
  intros Hrun. unfold_handler. split_paths.
  all: first [ follows_plan true | follows_plan false ].
  Unshelve.
  all: first [ exact "" | exact (@nil float) ].
Qed.

(** X8: the calls of a request are the first calls of one fixed sequence
    (fetch, read, encode, has_collection, then open and count or create,
    count, insert, flush, count), made in that order and none beyond it, and
    only the last call of a request may have raised. *)
Theorem calls_follow_the_handler (w : world) (data : gmap string json)
    (h : list event) (db db' : gmap string collection_data)
    (r : result response) (t : list event) :
  process_file w data h db = (r, db', t) ->
  (exists text cname existed v,
     map ev_call t `prefix_of`
       request_calls (dict_get data "bucket_name") (dict_get data "file_key")
                     text cname existed v) /\
  Forall returned (removelast t).
Proof.
  intros Hrun.
  destruct (process_file_plan _ _ _ _ _ _ _ Hrun)
    as (text & cname & existed & v & Hplan & Hlast).
  split; [|assumption]. by exists text, cname, existed, v.
Qed.

Lemma calls_follow_the_handler_witness :
  (exists text cname existed v,
     map ev_call (process_file narrow_world readme_request [] ∅).2 `prefix_of`
       request_calls (dict_get readme_request "bucket_name")
                     (dict_get readme_request "file_key")
                     text cname existed v) /\
  Forall returned
         (removelast (process_file narrow_world readme_request [] ∅).2).
Proof.
  apply (calls_follow_the_handler narrow_world readme_request [] ∅
           (process_file narrow_world readme_request [] ∅).1.2
           (process_file narrow_world readme_request [] ∅).1.1).
  vm_compute. reflexivity.
Defined.

(** ** What a response tells *)

(** X9: a 200 is answered only after the whole sequence of calls was made
    and each of them returned, insert and flush included; its message names
    the key. *)
Theorem success_means_every_call_returned (w : world)
    (data : gmap string json) (h : list event)
    (db db' : gmap string collection_data) (resp : response)
    (t : list event) :
  process_file w data h db = (Ok resp, db', t) ->
  status resp = 200%Z ->
  Forall returned t /\
  exists fk text cname existed v,
    data !! "file_key" = Some (JStr fk) /\
    resp = success_response fk /\
    map ev_call t =
      request_calls (dict_get data "bucket_name") (JStr fk)
                    text cname existed v.
Proof.
  intros Hrun Hstatus. unfold_handler. split_paths.
  all: try discriminate.
  all: resolved_path fk p s rest.
  all: (split; [repeat constructor|]).
  all: first [ eexists fk, _, _, true, _; split; [done | split; reflexivity]
             | eexists fk, _, _, false, _; split; [done | split; reflexivity] ].
Qed.

Lemma success_means_every_call_returned_witness :
  Forall returned (process_file docs_world readme_request [] ∅).2 /\
  exists fk text cname existed v,
    readme_request !! "file_key" = Some (JStr fk) /\
    success_response "teamA/notes/readme.txt" = success_response fk /\
    map ev_call (process_file docs_world readme_request [] ∅).2 =
      request_calls (dict_get readme_request "bucket_name") (JStr fk)
                    text cname existed v.
Proof.
  apply (success_means_every_call_returned docs_world readme_request [] ∅
           (process_file docs_world readme_request [] ∅).1.2
           (success_response "teamA/notes/readme.txt")
           (process_file docs_world readme_request [] ∅).2).
  - vm_compute. reflexivity.
  - reflexivity.
Defined.

(** X10: a request answered 400, for either reason, made no call to Milvus
    and left the server as it was. *)
Theorem client_error_leaves_milvus_alone (w : world)
    (data : gmap string json) (h : list event)
    (db db' : gmap string collection_data) (resp : response)
    (t : list event) :
  process_file w data h db = (Ok resp, db', t) ->
  status resp = 400%Z ->
  db' = db /\ Forall (fun ev => is_milvus_call (ev_call ev) = false) t.
Proof.
  intros Hrun Hstatus. unfold_handler. split_paths.
  all: try discriminate.
  all: split; [reflexivity | repeat constructor].
Qed.

Lemma client_error_leaves_milvus_alone_witness :
  (process_file docs_world short_request [] ∅).1.2 = ∅ /\
  Forall (fun ev => is_milvus_call (ev_call ev) = false)
         (process_file docs_world short_request [] ∅).2.
Proof.
  apply (client_error_leaves_milvus_alone docs_world short_request [] ∅
           (process_file docs_world short_request [] ∅).1.2
           (invalid_path_response "onlyonesegment")
           (process_file docs_world short_request [] ∅).2).
  - vm_compute. reflexivity.
  - reflexivity.
Defined.

(** X11: when an exception leaves the handler, neither [insert] nor [flush]
    was called, and every collection that existed is unchanged. *)
Theorem escaping_exception_inserts_nothing (w : world)
    (data : gmap string json) (h : list event)
    (db db' : gmap string collection_data) (e : exn) (t : list event) :
  process_file w data h db = (Raise e, db', t) ->
  (forall n d res, ~ In (Ev (Insert n d) res) t) /\
  (forall n res, ~ In (Ev (Flush n) res) t) /\
  (forall m d, db !! m = Some d -> db' !! m = Some d).
Proof.
  intros Hrun. unfold_handler. split_paths.
  all: repeat split; try (intros ? ? ? Hin; in_trace; fail);
    try (intros ? ? Hin; in_trace; fail).
  all: intros m d Hm; try assumption.
  all: match goal with
       | H : ?db !! ?n = None |- <[?n := _]> ?db !! ?m = _ =>
           destruct (decide (n = m)); simplify_map_eq; done
       end.
Qed.

Lemma escaping_exception_inserts_nothing_witness :
  (forall n d res,
     ~ In (Ev (Insert n d) res)
          (process_file docs_world number_request [] ∅).2) /\
  (forall n res,
     ~ In (Ev (Flush n) res)
          (process_file docs_world number_request [] ∅).2) /\
  (forall m d,
     (∅ : gmap string collection_data) !! m = Some d ->
     (process_file docs_world number_request [] ∅).1.2 !! m = Some d).
Proof.
  apply (escaping_exception_inserts_nothing docs_world number_request [] ∅
           (process_file docs_world number_request [] ∅).1.2
           (PyExn "ParamValidationError" "Parameter validation failed")
           (process_file docs_world number_request [] ∅).2).
  vm_compute. reflexivity.
Defined.

(** ** Failures while resolving the collection *)

(** X12: an exception raised by [has_collection], by [Collection(name)], by the
    creation of the collection or by an entity count read before the insert
    is not caught: it leaves the handler.  When the creation raised, the
    server is unchanged. *)
Theorem resolution_failure_escapes (w : world) (data : gmap string json)
    (h : list event) (db db' : gmap string collection_data)
    (r : result response) (t : list event) :
  process_file w data h db = (r, db', t) ->
  (forall n e, In (Ev (HasCollection n) (Some e)) t -> r = Raise e) /\
  (forall n e, In (Ev (CollectionOpen n) (Some e)) t -> r = Raise e) /\
  (forall n sch e, In (Ev (CollectionCreate n sch) (Some e)) t ->
     r = Raise e /\ db' = db) /\
  (forall n e, In (Ev (NumEntities n) (Some e)) t ->
     (forall m d res, ~ In (Ev (Insert m d) res) t) -> r = Raise e).
Proof.
  intros Hrun. unfold_handler. split_paths.
  all: repeat split; intros; in_trace; try reflexivity.
  all: exfalso;
    match goal with
    | H : forall m d res, ~ In _ _ |- _ => eapply H; simpl; eauto 10
    end.
Qed.

(** ** What a request does to the collections *)

(** X17: a request never drops a collection, never changes a schema and never
    removes a flushed row: a collection that existed still exists with the
    same schema, and its rows begin with the rows it had. *)
Theorem collections_are_kept (w : world) (data : gmap string json)
    (h : list event) (db db' : gmap string collection_data)
    (r : result response) (t : list event) (m : string)
    (d : collection_data) :
  process_file w data h db = (r, db', t) ->
  db !! m = Some d ->
  exists d', db' !! m = Some d' /\
             coll_schema d' = coll_schema d /\
             coll_rows d `prefix_of` coll_rows d'.
Proof.
  intros Hrun Hm. revert m d Hm. unfold_handler. split_paths.
  all: intros m d Hm.
  all: repeat match goal with
              | |- context [<[?n := _]> _ !! ?m'] =>
                  destruct (decide (n = m')) as [<- | ?];
                  [rewrite lookup_insert_eq | rewrite lookup_insert_ne by done]
              end;
    simplify_eq.
  all: try (eexists; split; [eassumption | split; [reflexivity | done]]).
  all: eexists; split; [reflexivity | split; [reflexivity | simpl]].
  all: try done.
  all: try (by apply prefix_app_r).
Qed.

Lemma resolution_failure_escapes_witness :
  (process_file offline_world readme_request [] ∅).1.1 =
    Raise connection_lost.
Proof.
  destruct (resolution_failure_escapes offline_world readme_request [] ∅
              (process_file offline_world readme_request [] ∅).1.2
              (process_file offline_world readme_request [] ∅).1.1
              (process_file offline_world readme_request [] ∅).2)
    as [Hhas _].
  - vm_compute. reflexivity.
  - apply (Hhas "teamA_notes"). vm_compute. do 3 right. left. reflexivity.
Defined.

Lemma collections_are_kept_witness :
  exists d',
    (process_file narrow_world todo_request []
       (process_file docs_world readme_request [] ∅).1.2).1.2
      !! "teamA_notes" = Some d' /\
    coll_schema d' = coll_schema (mkData collection_schema [hello_vector] []) /\
    coll_rows (mkData collection_schema [hello_vector] [])
      `prefix_of` coll_rows d'.
Proof.
  apply (collections_are_kept narrow_world todo_request []
           (process_file docs_world readme_request [] ∅).1.2
           (process_file narrow_world todo_request []
              (process_file docs_world readme_request [] ∅).1.2).1.2
           (process_file narrow_world todo_request []
              (process_file docs_world readme_request [] ∅).1.2).1.1
           (process_file narrow_world todo_request []
              (process_file docs_world readme_request [] ∅).1.2).2
           "teamA_notes" (mkData collection_schema [hello_vector] [])).
  - vm_compute. reflexivity.
  - vm_compute. reflexivity.
Defined.

(** X18: a request for a key [parent/subfolder/...] leaves every collection
    other than [parent_subfolder] exactly as it was. *)
Theorem other_collections_untouched (w : world) (data : gmap string json)
    (h : list event) (db db' : gmap string collection_data)
    (r : result response) (t : list event) (fk p s : string)
    (rest : list string) (m : string) :
  process_file w data h db = (r, db', t) ->
  data !! "file_key" = Some (JStr fk) ->
  split slash fk = p :: s :: rest ->
  m <> p +:+ "_" +:+ s -> db' !! m = db !! m.
Proof.
  intros Hrun Hk Hsplit Hm. revert m Hm.
  unfold process_file in Hrun.
  rewrite (dict_get_lookup _ _ _ Hk) in Hrun.
  unfold json_split in Hrun. rewrite Hsplit in Hrun.
  destruct rest as [|x rest]; unfold_handler; split_paths.
  all: intros m Hm; try reflexivity.
  all: by rewrite ?lookup_insert_ne by done.
Qed.

Lemma other_collections_untouched_witness :
  (process_file docs_world gap_request []
     (process_file docs_world readme_request [] ∅).1.2).1.2 !! "teamA_notes" =
  (process_file docs_world readme_request [] ∅).1.2 !! "teamA_notes".
Proof.
  apply (other_collections_untouched docs_world gap_request []
           (process_file docs_world readme_request [] ∅).1.2
           (process_file docs_world gap_request []
              (process_file docs_world readme_request [] ∅).1.2).1.2
           (process_file docs_world gap_request []
              (process_file docs_world readme_request [] ∅).1.2).1.1
           (process_file docs_world gap_request []
              (process_file docs_world readme_request [] ∅).1.2).2
           "a//file" "a" "" ["file"] "teamA_notes").
  - vm_compute. reflexivity.
  - vm_compute. reflexivity.
  - reflexivity.
  - discriminate.
Defined.

(** ** Rows *)

Ltac stored_row :=
  rewrite lookup_insert_eq;
  repeat match goal with
         | H : ?db !! ?n = _ |- context [?db !! ?n] => rewrite H
         end;
  reflexivity.

(** The row that a request answered 200 leaves in its collection. *)
Lemma process_file_success_row (w : world) (data : gmap string json)
    (h : list event) (db db' : gmap string collection_data)
    (resp : response) (t : list event) (fk p s : string)
    (rest : list string) :
  process_file w data h db = (Ok resp, db', t) ->
  status resp = 200%Z ->
  data !! "file_key" = Some (JStr fk) ->
  split slash fk = p :: s :: rest ->
  exists text emb,
    In (Ev (ModelEncode text) None) t /\ model_encode w text = Ok emb /\
    db' !! (p +:+ "_" +:+ s) =
      Some (with_row (default empty_collection (db !! (p +:+ "_" +:+ s)))
                     (embedding_values emb)).
Proof.
  intros Hrun Hstatus Hk Hsplit.
  unfold process_file in Hrun.
  rewrite (dict_get_lookup _ _ _ Hk) in Hrun.
  unfold json_split in Hrun. rewrite Hsplit in Hrun.
  destruct rest as [|x rest]; unfold_handler; split_paths.
  all: try discriminate.
  all: match goal with
       | H : model_encode _ ?text = Ok ?emb |- _ => exists text, emb
       end;
    split; [simpl; auto | split; [assumption | stored_row]].
Qed.

(** X15: after a request answered 200, its collection holds what it held
    (or nothing, when it was just created), the rows that were waiting for a
    flush, and one more row, the embedding of the request; nothing waits
    for a flush. *)
Theorem success_stores_one_row (w : world) (data : gmap string json)
    (h : list event) (db db' : gmap string collection_data)
    (resp : response) (t : list event) (fk p s : string)
    (rest : list string) :
  process_file w data h db = (Ok resp, db', t) ->
  status resp = 200%Z ->
  data !! "file_key" = Some (JStr fk) ->
  split slash fk = p :: s :: rest ->
  exists text emb,
    In (Ev (ModelEncode text) None) t /\ model_encode w text = Ok emb /\
    db' !! (p +:+ "_" +:+ s) =
      Some (with_row (default empty_collection (db !! (p +:+ "_" +:+ s)))
                     (embedding_values emb)).
Proof. apply process_file_success_row. Qed.

Lemma success_stores_one_row_witness :
  exists text emb,
    In (Ev (ModelEncode text) None)
       (process_file docs_world readme_request [] ∅).2 /\
    model_encode docs_world text = Ok emb /\
    (process_file docs_world readme_request [] ∅).1.2
      !! ("teamA" +:+ "_" +:+ "notes") =
      Some (with_row
              (default empty_collection
                 ((∅ : gmap string collection_data)
                    !! ("teamA" +:+ "_" +:+ "notes")))
              (embedding_values emb)).
Proof.
  apply (success_stores_one_row docs_world readme_request [] ∅
           (process_file docs_world readme_request [] ∅).1.2
           (success_response "teamA/notes/readme.txt")
           (process_file docs_world readme_request [] ∅).2
           "teamA/notes/readme.txt" "teamA" "notes" ["readme.txt"]).
  - vm_compute. reflexivity.
  - reflexivity.
  - vm_compute. reflexivity.
  - reflexivity.
Defined.



(** ** Failures around the insert *)

(** X14: nothing is undone: when a request created its collection and the
    insert then raised, the answer is 500 and the new collection stays on
    the server, empty. *)
Theorem created_collection_survives_failed_insert (w : world)
    (data : gmap string json) (h : list event)
    (db db' : gmap string collection_data) (r : result response)
    (t : list event) (n n' : string) (sch : CollectionSchema)
    (d : list (list (list float))) (e : exn) :
  process_file w data h db = (r, db', t) ->
  In (Ev (CollectionCreate n sch) None) t ->
  In (Ev (Insert n' d) (Some e)) t ->
  n' = n /\ db !! n = None /\ db' !! n = Some empty_collection /\
  r = Ok (insert_error_response e).
Proof.
  intros Hrun Hcreate Hinsert. unfold_handler. split_paths.
  all: in_trace.
  all: repeat split; try assumption; by rewrite lookup_insert_eq.
Qed.

Lemma created_collection_survives_failed_insert_witness :
  "teamA_notes" = "teamA_notes" /\
  (∅ : gmap string collection_data) !! "teamA_notes" = None /\
  (process_file narrow_world readme_request [] ∅).1.2 !! "teamA_notes" =
    Some empty_collection /\
  (process_file narrow_world readme_request [] ∅).1.1 =
    Ok (insert_error_response dimension_mismatch).
Proof.
  apply (created_collection_survives_failed_insert narrow_world
           readme_request [] ∅
           (process_file narrow_world readme_request [] ∅).1.2
           (process_file narrow_world readme_request [] ∅).1.1
           (process_file narrow_world readme_request [] ∅).2
           "teamA_notes" "teamA_notes" collection_schema
           [[[0.25; -1.5; 3]%float]] dimension_mismatch).
  - vm_compute. reflexivity.
  - vm_compute. do 4 right. left. reflexivity.
  - vm_compute. do 6 right. left. reflexivity.
Defined.

(** X13: the entity count read that follows the flush is inside the [try]: if
    it raises, the answer is 500 [Error inserting vector] although the insert
    and the flush returned and the vector is stored. *)
Theorem count_failure_after_flush (w : world) (data : gmap string json)
    (h : list event) (db db' : gmap string collection_data)
    (r : result response) (t : list event) (n n' : string) (e : exn) :
  process_file w data h db = (r, db', t) ->
  In (Ev (Flush n) None) t ->
  In (Ev (NumEntities n') (Some e)) t ->
  r = Ok (insert_error_response e) /\
  exists v,
    In (Ev (Insert n [[v]]) None) t /\
    db' !! n = Some (with_row (default empty_collection (db !! n)) v).
Proof.
  intros Hrun Hflush Hcount. unfold_handler. split_paths.
  all: in_trace.
  all: (split; [reflexivity|]); eexists; (split; [simpl; eauto 10|]);
    stored_row.
Qed.

Lemma count_failure_after_flush_witness :
  (process_file late_world readme_request [] ∅).1.1 =
    Ok (insert_error_response connection_lost) /\
  exists v,
    In (Ev (Insert "teamA_notes" [[v]]) None)
       (process_file late_world readme_request [] ∅).2 /\
    (process_file late_world readme_request [] ∅).1.2 !! "teamA_notes" =
      Some (with_row
              (default empty_collection
                 ((∅ : gmap string collection_data) !! "teamA_notes")) v).
Proof.
  apply (count_failure_after_flush late_world readme_request [] ∅
           (process_file late_world readme_request [] ∅).1.2
           (process_file late_world readme_request [] ∅).1.1
           (process_file late_world readme_request [] ∅).2
           "teamA_notes" "teamA_notes" connection_lost).
  - vm_compute. reflexivity.
  - vm_compute. do 7 right. left. reflexivity.
  - vm_compute. do 8 right. left. reflexivity.
Defined.

(** ** Collections over a sequence of requests *)

(** An absent collection is there after a request exactly when the request
    created it. *)
Lemma process_file_fresh (w : world) (data : gmap string json)
    (h : list event) (db db' : gmap string collection_data)
    (r : result response) (t : list event) (n : string) :
  process_file w data h db = (r, db', t) ->
  db !! n = None ->
  (is_Some (db' !! n) <-> created n t = 1).
Proof.
  intros Hrun Hn.
  destruct (process_file_effect _ _ _ _ _ _ _ Hrun) as [Heff _].
  destruct (Heff n) as (_ & _ & Hnew).
  split; [|exact Hnew].
  clear Heff Hnew. revert Hn. unfold_handler. split_paths.
  all: intros Hn Hsome;
    try (rewrite Hn in Hsome; by destruct Hsome).
  all: unfold created, is_created, is_create; simpl.
  all: repeat case_bool_decide; simplify_eq; try reflexivity.
  all: exfalso;
    repeat match type of Hsome with
           | context [<[?m := _]> _ !! _] =>
               destruct (decide (m = n)) as [<- | ?]; [congruence|];
               rewrite lookup_insert_ne in Hsome by done
           end;
    rewrite Hn in Hsome; by destruct Hsome.
Qed.

Lemma serve_created (reqs : list (world * gmap string json))
    (h : list event) (db : gmap string collection_data) (n : string) :
  (is_Some (db !! n) ->
   is_Some ((serve reqs h db).1.2 !! n) /\ created n (serve reqs h db).2 = 0) /\
  (db !! n = None ->
   created n (serve reqs h db).2 <= 1 /\
   (is_Some ((serve reqs h db).1.2 !! n) <->
    created n (serve reqs h db).2 = 1)).
Proof.
  revert h db. induction reqs as [|[w data] reqs IH]; intros h db; simpl.
  - split.
    + intros Hn. split; [assumption | reflexivity].
    + intros Hn. split; [unfold created; simpl; lia|].
      rewrite Hn. split; [by intros [? ?] | discriminate].
  - destruct (process_file w data h db) as [[r db1] t1] eqn:Hrun.
    destruct (process_file_effect _ _ _ _ _ _ _ Hrun) as [Heff _].
    destruct (Heff n) as (Hkeep & Hle & _).
    pose proof (process_file_fresh _ _ _ _ _ _ _ n Hrun) as Hfresh.
    pose proof (created_le_calls n t1) as Hcc.
    specialize (IH (h ++ t1)%list db1).
    destruct (serve reqs (h ++ t1)%list db1) as [[rs db2] t2]. simpl in *.
    destruct IH as [IHsome IHnone].
    rewrite created_app. split.
    + intros Hn. destruct (Hkeep Hn) as [Hn1 Hcalls].
      destruct (IHsome Hn1) as [Hn2 H0]. split; [assumption | lia].
    + intros Hn. specialize (Hfresh Hn).
      destruct (db1 !! n) as [d1|] eqn:Hn1.
      * assert (created n t1 = 1) as H1 by (apply Hfresh; eauto).
        destruct (IHsome (ltac:(eauto))) as [Hn2 H0].
        split; [lia|]. split; [lia | auto].
      * assert (created n t1 = 0) as H0.
        { destruct (decide (created n t1 = 1)) as [H1|H1]; [|lia].
          apply Hfresh in H1. by destruct H1. }
        destruct (IHnone eq_refl) as [Hle2 Hiff].
        rewrite H0. simpl. split; assumption.
Qed.

(** X19: whatever requests a server that starts empty is given, each
    collection is created at most once, and the collections of the server
    are exactly those whose creation returned. *)
Theorem every_collection_created_once
    (reqs : list (world * gmap string json)) (n : string) :
  let '(rs, db, t) := serve reqs [] ∅ in
  created n t <= 1 /\ (is_Some (db !! n) <-> created n t = 1).
Proof.
  destruct (serve_created reqs [] ∅ n) as [_ Hnone].
  destruct (serve reqs [] ∅) as [[rs db] t]. simpl in *.
  apply Hnone. apply lookup_empty.
Qed.

